(** * kubespawner.objects: builders of Kubernetes API objects

    A shallow embedding of [kubespawner/objects.py] ([make_pod],
    [make_pvc], [make_ingress]) together with the parts of the Python
    runtime these builders call: string methods, [int], truthiness,
    [json.dumps] / [json.loads] and [urllib.parse.urlparse].

    Python [str] values are embedded as [string]: sequences of code points
    below 256.  Python [float] values are not embedded, and neither are
    the resource limits of the interpreter (the recursion depth, the
    configurable cap on the number of digits in conversions between [int]
    and [str]). *)

From Stdlib Require Import ZArith Ascii String List Lia.
From Stdlib Require Import DecimalString DecimalZ DecimalPos DecimalFacts.
From stdpp Require Import base gmap strings list.

Local Open Scope string_scope.
Local Open Scope Z_scope.

(** ** Exceptions *)

(** [ValueError] and [TypeError] are the Python exceptions of these names
    ([json.JSONDecodeError] is a [ValueError]).  [NotEmbedded] is no
    Python exception: it marks a run whose Python result exists but lies
    outside the embedded values (a [float], or a [str] with a code point
    of 256 or more). *)
Inductive exn : Type :=
| ValueError (msg : string)
| TypeError (msg : string)
| NotEmbedded (what : string).

Inductive result (A : Type) : Type :=
| Ok (a : A)
| Raise (e : exn).

Arguments Ok {A} a.
Arguments Raise {A} e.

(** A raised exception propagates through the rest of the block; the
    notation [x ← c; k] is the one of stdpp's [MBind]. *)
#[global] Instance result_bind : MBind result := fun A B k c =>
  match c with
  | Ok a => k a
  | Raise e => Raise e
  end.

#[global] Instance result_ret : MRet result := fun A a => Ok a.

Definition returns {A : Type} (c : result A) : Prop := exists a, c = Ok a.

(** ** Characters and [str] methods *)

Module Str.

Definition ord (c : ascii) : Z := Z.of_N (N_of_ascii c).
Definition chr (n : Z) : ascii := ascii_of_N (Z.to_N n).

Definition between (lo hi : Z) (c : ascii) : bool :=
  (lo <=? ord c) && (ord c <=? hi).

Definition is_ascii_digit (c : ascii) : bool := between 48 57 c.
Definition is_ascii_alpha (c : ascii) : bool := between 65 90 c || between 97 122 c.
Definition is_hex_digit (c : ascii) : bool :=
  is_ascii_digit c || between 65 70 c || between 97 102 c.

(** [c in s] for a one-character [c]. *)
Fixpoint contains (c : ascii) (s : string) : bool :=
  match s with
  | EmptyString => false
  | String x s' => if Ascii.eqb x c then true else contains c s'
  end.

(** [s.startswith(p)] *)
Fixpoint startswith (p s : string) : bool :=
  match p, s with
  | EmptyString, _ => true
  | String a p', String b s' => Ascii.eqb a b && startswith p' s'
  | String _ _, EmptyString => false
  end.

Fixpoint all_chars (f : ascii -> bool) (s : string) : bool :=
  match s with
  | EmptyString => true
  | String x s' => f x && all_chars f s'
  end.

Definition is_empty (s : string) : bool :=
  match s with EmptyString => true | String _ _ => false end.

(** The text before and after the first occurrence of [sep], when there
    is one. *)
Fixpoint break_first (sep : ascii) (s : string) : option (string * string) :=
  match s with
  | EmptyString => None
  | String x s' =>
      if Ascii.eqb x sep then Some (EmptyString, s')
      else match break_first sep s' with
           | Some (a, b) => Some (String x a, b)
           | None => None
           end
  end.

(** The text before and after the last occurrence of [sep]. *)
Fixpoint break_last (sep : ascii) (s : string) : option (string * string) :=
  match s with
  | EmptyString => None
  | String x s' =>
      match break_last sep s' with
      | Some (a, b) => Some (String x a, b)
      | None => if Ascii.eqb x sep then Some (EmptyString, s') else None
      end
  end.

(** [s.split(sep, 1)]: at most one split, the separator is dropped. *)
Definition split1 (sep : ascii) (s : string) : list string :=
  match break_first sep s with
  | Some (a, b) => [a; b]
  | None => [s]
  end.

(** [s.split(sep)] *)
Fixpoint split (sep : ascii) (s : string) : list string :=
  match s with
  | EmptyString => [EmptyString]
  | String x s' =>
      if Ascii.eqb x sep then EmptyString :: split sep s'
      else match split sep s' with
           | p :: ps => String x p :: ps
           | [] => [String x EmptyString]
           end
  end.

(** [s.partition(sep)]: the middle component records whether [sep] was
    found. *)
Definition partition (sep : ascii) (s : string) : string * bool * string :=
  match break_first sep s with
  | Some (a, b) => (a, true, b)
  | None => (s, false, EmptyString)
  end.

(** [s.rpartition(sep)] *)
Definition rpartition (sep : ascii) (s : string) : string * bool * string :=
  match break_last sep s with
  | Some (a, b) => (a, true, b)
  | None => (EmptyString, false, s)
  end.

(** [a, b = parts]: unpacking a list into exactly two names. *)
Definition unpack2 (parts : list string) : result (string * string) :=
  match parts with
  | [a; b] => Ok (a, b)
  | [] | [_] => Raise (ValueError "not enough values to unpack")
  | _ => Raise (ValueError "too many values to unpack")
  end.

(** [str.lower] on one code point below 256: the upper-case letters are
    A-Z, U+00C0-U+00D6 and U+00D8-U+00DE. *)
Definition lower_char (c : ascii) : ascii :=
  if between 65 90 c || between 192 214 c || between 216 222 c
  then chr (ord c + 32) else c.

Fixpoint lower (s : string) : string :=
  match s with
  | EmptyString => EmptyString
  | String x s' => String (lower_char x) (lower s')
  end.

(** [s.lstrip(chars)] for a set of characters given as a predicate. *)
Fixpoint lstrip (f : ascii -> bool) (s : string) : string :=
  match s with
  | EmptyString => EmptyString
  | String x s' => if f x then lstrip f s' else s
  end.

(** Removal of every character satisfying [f] ([s.replace(c, "")] for
    each such [c]). *)
Fixpoint remove (f : ascii -> bool) (s : string) : string :=
  match s with
  | EmptyString => EmptyString
  | String x s' => if f x then remove f s' else String x (remove f s')
  end.

(** The longest prefix none of whose characters satisfies [f]. *)
Fixpoint take_until (f : ascii -> bool) (s : string) : string :=
  match s with
  | EmptyString => EmptyString
  | String x s' => if f x then EmptyString else String x (take_until f s')
  end.

(** [s[n:]] *)
Fixpoint slice_from (n : nat) (s : string) : string :=
  match n, s with
  | O, _ => s
  | S n', String _ s' => slice_from n' s'
  | S _, EmptyString => EmptyString
  end.

(** [s.rstrip(chars)] *)
Fixpoint rstrip (f : ascii -> bool) (s : string) : string :=
  match s with
  | EmptyString => EmptyString
  | String x s' =>
      let r := rstrip f s' in
      if is_empty r && f x then EmptyString else String x r
  end.

Definition strip (f : ascii -> bool) (s : string) : string :=
  rstrip f (lstrip f s).

(** The longest prefix whose characters all satisfy [f], and the rest. *)
Fixpoint span (f : ascii -> bool) (s : string) : string * string :=
  match s with
  | EmptyString => (EmptyString, EmptyString)
  | String x s' =>
      if f x then let '(a, b) := span f s' in (String x a, b)
      else (EmptyString, s)
  end.

Definition dquote : ascii := "034".

Definition digit_value (c : ascii) : Z := ord c - 48.

(** Value of a string of ASCII decimal digits, most significant first. *)
Fixpoint digits_value (acc : Z) (s : string) : Z :=
  match s with
  | EmptyString => acc
  | String x s' => digits_value (10 * acc + digit_value x) s'
  end.

Definition hex_value (c : ascii) : Z :=
  if is_ascii_digit c then ord c - 48
  else if between 65 70 c then ord c - 55
  else ord c - 87.

Definition hex_digit (n : Z) : ascii :=
  if n <? 10 then chr (48 + n) else chr (87 + n).

End Str.

(** ** [urllib.parse.urlparse]: network location, host name and port

    After [urlsplit] of CPython 3.11.  Of the parsed result only the
    network location is embedded: it is the one component the [hostname]
    and [port] attributes read.  The NFKC check of [_checknetloc] cannot
    fire on code points below 256 and is left out. *)

Module Url.
Import Str.

Definition c0_control_or_space (c : ascii) : bool := ord c <=? 32.

Definition unsafe_byte (c : ascii) : bool :=
  Ascii.eqb c "009" || Ascii.eqb c "013" || Ascii.eqb c "010".

Definition scheme_char (c : ascii) : bool :=
  is_ascii_alpha c || is_ascii_digit c
  || Ascii.eqb c "+" || Ascii.eqb c "-" || Ascii.eqb c ".".

Definition netloc_delim (c : ascii) : bool :=
  Ascii.eqb c "/" || Ascii.eqb c "?" || Ascii.eqb c "#".

(** The URL with its scheme and the colon after it removed, when it has a
    scheme. *)
Definition strip_scheme (url : string) : string :=
  match url with
  | String c0 _ =>
      if is_ascii_alpha c0 then
        match break_first ":" url with
        | Some (pre, rest) => if all_chars scheme_char pre then rest else url
        | None => url
        end
      else url
  | EmptyString => url
  end.

(** [IPv4Address._parse_octet] succeeds. *)
Definition octet_ok (o : string) : bool :=
  negb (is_empty o) && all_chars is_ascii_digit o
  && (String.length o <=? 3)%nat
  && negb (negb (String.eqb o "0") && startswith "0" o)
  && (digits_value 0 o <=? 255).

(** [ipaddress.IPv4Address(s)] succeeds. *)
Definition ipv4_ok (s : string) : bool :=
  negb (contains "/" s) && negb (is_empty s)
  && (let octets := split "." s in
      (length octets =? 4)%nat && forallb octet_ok octets).

(** [IPv6Address._parse_hextet] succeeds. *)
Definition hextet_ok (h : string) : bool :=
  all_chars is_hex_digit h && (String.length h <=? 4)%nat && negb (is_empty h).

(** Indices [1 .. len-2] of [parts] holding an empty string. *)
Definition interior_empty (parts : list string) : list nat :=
  List.filter (fun i => is_empty (nth i parts "x"))
         (seq 1 (length parts - 2)).

(** [IPv6Address._ip_int_from_string] succeeds on the colon-separated
    [parts], any dotted-quad suffix already replaced by two hextets. *)
Definition ipv6_parts_ok (parts : list string) : bool :=
  let n := length parts in
  let first_empty := is_empty (nth 0 parts "x") in
  let last_empty := is_empty (nth (n - 1) parts "x") in
  if (9 <? n)%nat then false else
  match interior_empty parts with
  | _ :: _ :: _ => false
  | [skip_index] =>
      let parts_hi := if first_empty then (skip_index - 1)%nat else skip_index in
      let parts_lo := if last_empty then (n - skip_index - 2)%nat
                      else (n - skip_index - 1)%nat in
      if first_empty && negb (parts_hi =? 0)%nat then false
      else if last_empty && negb (parts_lo =? 0)%nat then false
      else if (8 <=? parts_hi + parts_lo)%nat then false
      else forallb hextet_ok (take parts_hi parts)
           && forallb hextet_ok (List.skipn (n - parts_lo) parts)
  | [] =>
      if negb (n =? 8)%nat then false
      else if first_empty then false
      else if last_empty then false
      else forallb hextet_ok parts
  end.

(** [ipaddress.IPv6Address(s)] succeeds. *)
Definition ipv6_ok (s : string) : bool :=
  if contains "/" s then false else
  let '(addr, sep, scope_id) := partition "%" s in
  if sep && (is_empty scope_id || contains "%" scope_id) then false else
  if is_empty addr then false else
  let parts := split ":" addr in
  if (length parts <? 3)%nat then false else
  let final := List.last parts "" in
  if contains "." final then
    ipv4_ok final && ipv6_parts_ok (List.removelast parts ++ ["0"; "0"])
  else ipv6_parts_ok parts.

(** The pattern of an IPvFuture literal: v, hexadecimal digits, a dot,
    and at least one more character. *)
Definition ipvfuture_ok (h : string) : bool :=
  match h with
  | String "v" r =>
      let digits := take_until (fun c => negb (is_hex_digit c)) r in
      negb (is_empty digits)
      && (match slice_from (String.length digits) r with
          | String "." (String c t) =>
              all_chars (fun x => negb (Ascii.eqb x "010")) (String c t)
          | _ => false
          end)
  | _ => false
  end.

Definition check_bracketed_host (hostname : string) : result unit :=
  if startswith "v" hostname then
    if ipvfuture_ok hostname then Ok tt
    else Raise (ValueError "IPvFuture address is invalid")
  else if ipv4_ok hostname then
    Raise (ValueError "An IPv4 address cannot be in brackets")
  else if ipv6_ok hostname then Ok tt
  else Raise (ValueError "does not appear to be an IPv4 or IPv6 address").

Definition check_bracketed_netloc (netloc : string) : result unit :=
  let '(_, _, hostname_and_port) := rpartition "@" netloc in
  let '(before_bracket, have_open_br, bracketed) :=
    partition "[" hostname_and_port in
  if have_open_br then
    if negb (is_empty before_bracket) then Raise (ValueError "Invalid IPv6 URL")
    else
      let '(hostname, _, port) := partition "]" bracketed in
      if negb (is_empty port) && negb (startswith ":" port)
      then Raise (ValueError "Invalid IPv6 URL")
      else check_bracketed_host hostname
  else
    let '(hostname, _, _) := partition ":" hostname_and_port in
    check_bracketed_host hostname.

Record ParseResult : Type := { netloc : string }.

Definition urlparse (url : string) : result ParseResult :=
  let url := lstrip c0_control_or_space url in
  let url := remove unsafe_byte url in
  let url := strip_scheme url in
  if startswith "//" url then
    let netloc := take_until netloc_delim (slice_from 2 url) in
    if (contains "[" netloc && negb (contains "]" netloc))
       || (contains "]" netloc && negb (contains "[" netloc))
    then Raise (ValueError "Invalid IPv6 URL")
    else
      _ ← (if contains "[" netloc && contains "]" netloc
           then check_bracketed_netloc netloc else Ok tt);
      Ok {| netloc := netloc |}
  else Ok {| netloc := "" |}.

Definition hostinfo (r : ParseResult) : string * option string :=
  let '(_, _, hostinfo) := rpartition "@" (netloc r) in
  let '(_, have_open_br, bracketed) := partition "[" hostinfo in
  let '(hostname, port) :=
    if have_open_br then
      let '(hostname, _, port) := partition "]" bracketed in
      let '(_, _, port) := partition ":" port in
      (hostname, port)
    else
      let '(hostname, _, port) := partition ":" hostinfo in
      (hostname, port) in
  (hostname, if is_empty port then None else Some port).

(** The [hostname] attribute: lower-cased up to a [%] zone suffix. *)
Definition hostname (r : ParseResult) : option string :=
  let hostname := fst (hostinfo r) in
  if is_empty hostname then None
  else
    let '(hostname, percent, zone) := partition "%" hostname in
    Some (lower hostname +:+ (if percent then "%" else "") +:+ zone).

(** The [port] attribute. *)
Definition port (r : ParseResult) : result (option Z) :=
  match snd (hostinfo r) with
  | None => Ok None
  | Some port =>
      if all_chars is_ascii_digit port then
        let port := digits_value 0 port in
        if port <=? 65535 then Ok (Some port)
        else Raise (ValueError "Port out of range 0-65535")
      else Raise (ValueError "Port could not be cast to integer value")
  end.

End Url.

(** ** Python values *)

Module Py.
Import Str.

(** Keys of a [dict] that [json.dumps] accepts. *)
Inductive pykey : Type :=
| KNone
| KBool (b : bool)
| KInt (z : Z)
| KStr (s : string).

(** The values the builders receive as configuration: the Python values
    [json.dumps] accepts, without [float].  A [dict] is its list of items
    in insertion order. *)
#[local] Set Warnings "-register-all".
Inductive pyval : Type :=
| PNone
| PBool (b : bool)
| PInt (z : Z)
| PStr (s : string)
| PList (l : list pyval)
| PTuple (l : list pyval)
| PDict (items : list (pykey * pyval)).
#[local] Set Warnings "register-all".

(** Truth value testing, as in [if x:]. *)
Definition truthy (x : pyval) : bool :=
  match x with
  | PNone => false
  | PBool b => b
  | PInt z => negb (z =? 0)
  | PStr s => negb (is_empty s)
  | PList l | PTuple l => negb (if l is [] then true else false)
  | PDict items => negb (if items is [] then true else false)
  end.

(** White space around the literal given to [int]: the ASCII white space
    and, of the other code points below 256, U+0085 and U+00A0. *)
Definition is_space (c : ascii) : bool :=
  between 9 13 c || Ascii.eqb c " " || Ascii.eqb c "133" || Ascii.eqb c "160".

(** Digits after the first one of a decimal literal: single underscores
    may separate digits. *)
Fixpoint int_digits (after_underscore : bool) (acc : Z) (s : string) : option Z :=
  match s with
  | EmptyString => if after_underscore then None else Some acc
  | String c s' =>
      if is_ascii_digit c then int_digits false (10 * acc + digit_value c) s'
      else if Ascii.eqb c "_" then
        if after_underscore then None else int_digits true acc s'
      else None
  end.

(** [int(s)] for a [str]. *)
Definition int_of_str (s : string) : result Z :=
  let s := strip is_space s in
  let '(negative, body) :=
    match s with
    | String "-" r => (true, r)
    | String "+" r => (false, r)
    | _ => (false, s)
    end in
  match body with
  | String c r =>
      if is_ascii_digit c then
        match int_digits false (digit_value c) r with
        | Some v => Ok (if negative then - v else v)
        | None => Raise (ValueError "invalid literal for int() with base 10")
        end
      else Raise (ValueError "invalid literal for int() with base 10")
  | EmptyString => Raise (ValueError "invalid literal for int() with base 10")
  end.

(** [int(x)] *)
Definition int (x : pyval) : result Z :=
  match x with
  | PInt z => Ok z
  | PBool b => Ok (if b then 1 else 0)
  | PStr s => int_of_str s
  | PNone | PList _ | PTuple _ | PDict _ =>
      Raise (TypeError "int() argument must be a string, a bytes-like object or a real number")
  end.

(** [int.__repr__] *)
Definition int_repr (z : Z) : string :=
  NilZero.string_of_int (Z.to_int z).

End Py.

(** ** [json.dumps] and [json.loads]

    After the [json] package of CPython 3.11, with the default arguments
    of the source's call [json.dumps(data)]: ASCII-only output, separators
    [", "] and [": "], no indentation.  The decoder works on the text
    still to be read where the Python code keeps an index into the whole
    text. *)

Module Json.
Import Str Py.

(** The replacement of one character in [encode_basestring_ascii]. *)
Definition escape_char (c : ascii) : string :=
  if Ascii.eqb c "\" then "\\"
  else if Ascii.eqb c dquote then String "\" (String dquote "")
  else if Ascii.eqb c "008" then "\b"
  else if Ascii.eqb c "012" then "\f"
  else if Ascii.eqb c "010" then "\n"
  else if Ascii.eqb c "013" then "\r"
  else if Ascii.eqb c "009" then "\t"
  else if between 32 126 c then String c ""
  else "\u00" +:+ String (hex_digit (ord c / 16))
                    (String (hex_digit (ord c mod 16)) "").

Fixpoint escape (s : string) : string :=
  match s with
  | EmptyString => EmptyString
  | String c s' => escape_char c +:+ escape s'
  end.

Definition encode_basestring_ascii (s : string) : string :=
  String dquote (escape s +:+ String dquote "").

(** The [str] a dictionary key is turned into before it is encoded. *)
Definition key_str (k : pykey) : string :=
  match k with
  | KStr s => s
  | KBool true => "true"
  | KBool false => "false"
  | KNone => "null"
  | KInt z => int_repr z
  end.

(** The items after the first one, each behind the item separator, and
    the closing bracket. *)
Definition join_items {A : Type} (enc : A -> string) (close : string)
  : list A -> string :=
  fix go (xs : list A) : string :=
    match xs with
    | [] => close
    | y :: ys => ", " +:+ enc y +:+ go ys
    end.

Fixpoint dumps (o : pyval) : string :=
  match o with
  | PStr s => encode_basestring_ascii s
  | PNone => "null"
  | PBool true => "true"
  | PBool false => "false"
  | PInt z => int_repr z
  | PList l | PTuple l =>
      match l with
      | [] => "[]"
      | x :: xs => "[" +:+ dumps x +:+ join_items dumps "]" xs
      end
  | PDict items =>
      let item := fun kv : pykey * pyval =>
        encode_basestring_ascii (key_str (fst kv)) +:+ ": " +:+ dumps (snd kv) in
      match items with
      | [] => "{}"
      | kv :: kvs => "{" +:+ item kv +:+ join_items item "}" kvs
      end
  end.

(** The text of one item of a dictionary, as [dumps] writes it. *)
Definition dict_item (kv : pykey * pyval) : string :=
  encode_basestring_ascii (key_str (fst kv)) +:+ ": " +:+ dumps (snd kv).

(** *** Decoding *)

Definition whitespace (c : ascii) : bool :=
  Ascii.eqb c " " || Ascii.eqb c "009" || Ascii.eqb c "010" || Ascii.eqb c "013".

Definition skip_ws (s : string) : string := lstrip whitespace s.

(** The table [BACKSLASH] of one-letter escapes. *)
Definition backslash (esc : ascii) : option ascii :=
  if Ascii.eqb esc dquote then Some dquote
  else if Ascii.eqb esc "\" then Some "\"%char
  else if Ascii.eqb esc "/" then Some "/"%char
  else if Ascii.eqb esc "b" then Some "008"%char
  else if Ascii.eqb esc "f" then Some "012"%char
  else if Ascii.eqb esc "n" then Some "010"%char
  else if Ascii.eqb esc "r" then Some "013"%char
  else if Ascii.eqb esc "t" then Some "009"%char
  else None.

(** [scanstring], strict: [s] starts right after the opening quote; the
    result is the decoded string and the text after the closing quote.
    A [\uXXXX] escape takes exactly four hexadecimal digits. *)
Fixpoint scanstring (s : string) : result (string * string) :=
  match s with
  | EmptyString => Raise (ValueError "Unterminated string starting at")
  | String c s' =>
      if Ascii.eqb c dquote then Ok (EmptyString, s')
      else if Ascii.eqb c "\" then
        match s' with
        | EmptyString => Raise (ValueError "Unterminated string starting at")
        | String esc s'' =>
            if Ascii.eqb esc "u" then
              match s'' with
              | String h1 (String h2 (String h3 (String h4 r))) =>
                  if is_hex_digit h1 && is_hex_digit h2
                     && is_hex_digit h3 && is_hex_digit h4
                  then
                    let uni :=
                      ((hex_value h1 * 16 + hex_value h2) * 16 + hex_value h3) * 16
                      + hex_value h4 in
                    if uni <? 256 then
                      '(t, rest) ← scanstring r; Ok (String (chr uni) t, rest)
                    else Raise (NotEmbedded "code point above 255")
                  else Raise (ValueError "Invalid \uXXXX escape")
              | _ => Raise (ValueError "Invalid \uXXXX escape")
              end
            else
              match backslash esc with
              | Some ch => '(t, rest) ← scanstring s''; Ok (String ch t, rest)
              | None => Raise (ValueError "Invalid \escape")
              end
        end
      else if ord c <? 32 then Raise (ValueError "Invalid control character at")
      else '(t, rest) ← scanstring s'; Ok (String c t, rest)
  end.

Definition starts_with_digit (s : string) : bool :=
  match s with
  | String c _ => is_ascii_digit c
  | EmptyString => false
  end.

(** The digits of the integer part of [NUMBER_RE]: a single zero, or a
    non-zero digit followed by digits; with the text after them. *)
Definition match_digits (s : string) : option (string * string) :=
  match s with
  | String c r =>
      if Ascii.eqb c "0" then Some ("0", r)
      else if between 49 57 c then
        let '(ds, rest) := span is_ascii_digit r in
        Some (String c ds, rest)
      else None
  | EmptyString => None
  end.

(** The integer part of [NUMBER_RE], an optional minus sign and the
    digits: sign, digits and the text after them. *)
Definition match_integer (s : string) : option (bool * string * string) :=
  match s with
  | String c r =>
      if Ascii.eqb c "-" then
        '(ds, rest) ← match_digits r; Some (true, ds, rest)
      else
        '(ds, rest) ← match_digits s; Some (false, ds, rest)
  | EmptyString => None
  end.

(** A fraction (a dot and a digit) follows. *)
Definition has_frac (s : string) : bool :=
  match s with
  | String "." r => starts_with_digit r
  | _ => false
  end.

(** An exponent (e or E, an optional sign, a digit) follows. *)
Definition has_exp (s : string) : bool :=
  match s with
  | String c r =>
      (Ascii.eqb c "e" || Ascii.eqb c "E")
      && (match r with
          | String sign r' =>
              if Ascii.eqb sign "-" || Ascii.eqb sign "+"
              then starts_with_digit r' else is_ascii_digit sign
          | EmptyString => false
          end)
  | EmptyString => false
  end.

Definition scan_number (s : string) : result (pyval * string) :=
  match match_integer s with
  | Some (negative, ds, rest) =>
      if has_frac rest || has_exp rest then Raise (NotEmbedded "float")
      else
        let n := digits_value 0 ds in
        Ok (PInt (if negative then - n else n), rest)
  | None =>
      if startswith "NaN" s || startswith "Infinity" s || startswith "-Infinity" s
      then Raise (NotEmbedded "float")
      else Raise (ValueError "Expecting value")
  end.

(** The loop of [JSONArray]: [s] starts at a value. *)
Fixpoint array_items (scan : string -> result (pyval * string)) (fuel : nat)
    (s : string) : result (list pyval * string) :=
  match fuel with
  | O => Raise (NotEmbedded "fuel")
  | S fuel' =>
      '(v, s1) ← scan s;
      match skip_ws s1 with
      | String c r =>
          if Ascii.eqb c "]" then Ok ([v], r)
          else if Ascii.eqb c "," then
            '(vs, r') ← array_items scan fuel' (skip_ws r); Ok (v :: vs, r')
          else Raise (ValueError "Expecting ',' delimiter")
      | EmptyString => Raise (ValueError "Expecting ',' delimiter")
      end
  end.

Definition expecting_property_name {A : Type} : result A :=
  Raise (ValueError "Expecting property name enclosed in double quotes").

(** The loop of [JSONObject]: [s] starts right after the opening quote of
    a property name. *)
Fixpoint object_items (scan : string -> result (pyval * string)) (fuel : nat)
    (s : string) : result (list (string * pyval) * string) :=
  match fuel with
  | O => Raise (NotEmbedded "fuel")
  | S fuel' =>
      '(key, s1) ← scanstring s;
      match skip_ws s1 with
      | String colon s2 =>
          if Ascii.eqb colon ":" then
            '(v, s3) ← scan (skip_ws s2);
            match skip_ws s3 with
            | String c r =>
                if Ascii.eqb c "}" then Ok ([(key, v)], r)
                else if Ascii.eqb c "," then
                  match skip_ws r with
                  | String q r' =>
                      if Ascii.eqb q dquote then
                        '(kvs, r'') ← object_items scan fuel' r';
                        Ok ((key, v) :: kvs, r'')
                      else expecting_property_name
                  | EmptyString => expecting_property_name
                  end
                else Raise (ValueError "Expecting ',' delimiter")
            | EmptyString => Raise (ValueError "Expecting ',' delimiter")
            end
          else Raise (ValueError "Expecting ':' delimiter")
      | EmptyString => Raise (ValueError "Expecting ':' delimiter")
      end
  end.

(** [d[k] = v] on the items of a dictionary with string keys: a key
    already present keeps its place. *)
Fixpoint dict_set (k : string) (v : pyval) (d : list (string * pyval))
  : list (string * pyval) :=
  match d with
  | [] => [(k, v)]
  | (k', v') :: d' =>
      if String.eqb k k' then (k', v) :: d' else (k', v') :: dict_set k v d'
  end.

(** [dict(pairs)] *)
Definition dict_of_pairs (pairs : list (string * pyval)) : list (pykey * pyval) :=
  map (fun kv => (KStr (fst kv), snd kv))
      (fold_left (fun d kv => dict_set (fst kv) (snd kv) d) pairs []).

(** [scan_once]: one JSON value at the start of [s], and the text after
    it.  Every nested value and every item consumes at least one
    character, so [fuel] above the length of [s] is never used up. *)
Fixpoint scan_once (fuel : nat) (s : string) : result (pyval * string) :=
  match fuel with
  | O => Raise (NotEmbedded "fuel")
  | S fuel' =>
      match s with
      | EmptyString => Raise (ValueError "Expecting value")
      | String c s' =>
          if Ascii.eqb c dquote then
            '(str, rest) ← scanstring s'; Ok (PStr str, rest)
          else if Ascii.eqb c "{" then
            match skip_ws s' with
            | String q r =>
                if Ascii.eqb q "}" then Ok (PDict [], r)
                else if Ascii.eqb q dquote then
                  '(pairs, rest) ← object_items (scan_once fuel') fuel' r;
                  Ok (PDict (dict_of_pairs pairs), rest)
                else expecting_property_name
            | EmptyString => expecting_property_name
            end
          else if Ascii.eqb c "[" then
            if startswith "]" (skip_ws s') then Ok (PList [], slice_from 1 (skip_ws s'))
            else
              '(l, rest) ← array_items (scan_once fuel') fuel' (skip_ws s');
              Ok (PList l, rest)
          else if startswith "null" s then Ok (PNone, slice_from 4 s)
          else if startswith "true" s then Ok (PBool true, slice_from 4 s)
          else if startswith "false" s then Ok (PBool false, slice_from 5 s)
          else scan_number s
      end
  end.

(** [json.loads] *)
Definition loads (s : string) : result pyval :=
  '(obj, rest) ← scan_once (S (String.length s)) (skip_ws s);
  match skip_ws rest with
  | EmptyString => Ok obj
  | String _ _ => Raise (ValueError "Extra data")
  end.

End Json.

(** ** The Kubernetes client models

    One record per class of [kubernetes.client.models] the builders
    instantiate, with the attributes the builders set.  An attribute the
    source leaves at its default [None] is an [option] holding [None].
    The constructors store their arguments as given: [make_pod] itself
    instantiates [V1Container()] and [V1ContainerPort()] bare and assigns
    their required attributes afterwards. *)

Module V1ObjectMeta.
Record t : Type := mk {
  name : string;
  annotations : option (gmap string string);
  labels : option (gmap string string)
}.
End V1ObjectMeta.

Module V1PodSecurityContext.
Record t : Type := mk {
  fs_group : option Z;
  run_as_user : option Z
}.
End V1PodSecurityContext.

Module V1LocalObjectReference.
Record t : Type := mk { name : string }.
End V1LocalObjectReference.

Module V1ContainerPort.
Record t : Type := mk { name : string; container_port : Z }.
End V1ContainerPort.

Module V1EnvVar.
Record t : Type := mk { name : string; value : string }.
End V1EnvVar.

Module V1ResourceRequirements.
Record t : Type := mk {
  requests : option (gmap string Py.pyval);
  limits : option (gmap string Py.pyval)
}.
End V1ResourceRequirements.

Module V1Container.
Record t : Type := mk {
  name : string;
  image : string;
  working_dir : option string;
  ports : list V1ContainerPort.t;
  env : list V1EnvVar.t;
  args : list string;
  image_pull_policy : string;
  lifecycle : Py.pyval;
  resources : V1ResourceRequirements.t;
  volume_mounts : list Py.pyval
}.
End V1Container.

Module V1PodSpec.
Record t : Type := mk {
  security_context : option V1PodSecurityContext.t;
  image_pull_secrets : option (list V1LocalObjectReference.t);
  node_selector : option (gmap string string);
  containers : list V1Container.t;
  init_containers : list Py.pyval;
  volumes : list Py.pyval
}.
End V1PodSpec.

Module V1Pod.
Record t : Type := mk {
  kind : string;
  api_version : string;
  metadata : V1ObjectMeta.t;
  spec : V1PodSpec.t
}.
End V1Pod.

Module V1PersistentVolumeClaimSpec.
Record t : Type := mk {
  access_modes : list string;
  resources : V1ResourceRequirements.t
}.
End V1PersistentVolumeClaimSpec.

Module V1PersistentVolumeClaim.
Record t : Type := mk {
  kind : string;
  api_version : string;
  metadata : V1ObjectMeta.t;
  spec : V1PersistentVolumeClaimSpec.t
}.
End V1PersistentVolumeClaim.

Module V1EndpointAddress.
Record t : Type := mk { ip : option string }.
End V1EndpointAddress.

Module V1EndpointPort.
Record t : Type := mk { port : option Z }.
End V1EndpointPort.

Module V1EndpointSubset.
Record t : Type := mk {
  addresses : list V1EndpointAddress.t;
  ports : list V1EndpointPort.t
}.
End V1EndpointSubset.

Module V1Endpoints.
Record t : Type := mk {
  kind : string;
  metadata : V1ObjectMeta.t;
  subsets : list V1EndpointSubset.t
}.
End V1Endpoints.

Module V1ServicePort.
Record t : Type := mk { port : option Z; target_port : option Z }.
End V1ServicePort.

Module V1ServiceSpec.
Record t : Type := mk { ports : list V1ServicePort.t }.
End V1ServiceSpec.

Module V1Service.
Record t : Type := mk {
  kind : string;
  metadata : V1ObjectMeta.t;
  spec : V1ServiceSpec.t
}.
End V1Service.

Module V1beta1IngressBackend.
Record t : Type := mk { service_name : string; service_port : option Z }.
End V1beta1IngressBackend.

Module V1beta1HTTPIngressPath.
Record t : Type := mk { path : string; backend : V1beta1IngressBackend.t }.
End V1beta1HTTPIngressPath.

Module V1beta1HTTPIngressRuleValue.
Record t : Type := mk { paths : list V1beta1HTTPIngressPath.t }.
End V1beta1HTTPIngressRuleValue.

Module V1beta1IngressRule.
Record t : Type := mk {
  host : option string;
  http : V1beta1HTTPIngressRuleValue.t
}.
End V1beta1IngressRule.

Module V1beta1IngressSpec.
Record t : Type := mk { rules : list V1beta1IngressRule.t }.
End V1beta1IngressSpec.

Module V1beta1Ingress.
Record t : Type := mk {
  kind : string;
  metadata : V1ObjectMeta.t;
  spec : V1beta1IngressSpec.t
}.
End V1beta1Ingress.

(** ** The builders of [objects.py] *)

Import Py.

(** [int(x)] when [x is not None], for the two optional ids of
    [make_pod]. *)
Definition int_unless_none (x : pyval) : result (option Z) :=
  match x with
  | PNone => Ok None
  | _ => n ← Py.int x; Ok (Some n)
  end.

(** Truth value of an optional [dict]. *)
Definition truthy_dict (d : option (gmap string string)) : bool :=
  match d with
  | None => false
  | Some m => negb (bool_decide (m = ∅))
  end.

Definition make_pod
    (name image_spec image_pull_policy : string)
    (image_pull_secret : option string)
    (port : Z)
    (cmd : list string)
    (node_selector : option (gmap string string))
    (run_as_uid fs_gid : pyval)
    (env : list (string * string))
    (working_dir : option string)
    (volumes volume_mounts : list pyval)
    (labels : gmap string string)
    (cpu_limit cpu_guarantee mem_limit mem_guarantee : pyval)
    (lifecycle_hooks : pyval)
    (init_containers : list pyval)
  : result V1Pod.t :=
  let metadata := V1ObjectMeta.mk name None (Some labels) in
  fs_group ← int_unless_none fs_gid;
  run_as_user ← int_unless_none run_as_uid;
  let security_context := V1PodSecurityContext.mk fs_group run_as_user in
  let image_pull_secrets :=
    match image_pull_secret with
    | Some secret => Some [V1LocalObjectReference.mk secret]
    | None => None
    end in
  let node_selector := if truthy_dict node_selector then node_selector else None in
  let port_ := V1ContainerPort.mk "notebook-port" port in
  let requests : gmap string pyval := ∅ in
  let requests :=
    if truthy cpu_guarantee then <["cpu" := cpu_guarantee]> requests else requests in
  let requests :=
    if truthy mem_guarantee then <["memory" := mem_guarantee]> requests else requests in
  let limits : gmap string pyval := ∅ in
  let limits :=
    if truthy cpu_limit then <["cpu" := cpu_limit]> limits else limits in
  let limits :=
    if truthy mem_limit then <["memory" := mem_limit]> limits else limits in
  let notebook_container :=
    {| V1Container.name := "notebook";
       V1Container.image := image_spec;
       V1Container.working_dir := working_dir;
       V1Container.ports := [port_];
       V1Container.env := map (fun kv => V1EnvVar.mk (fst kv) (snd kv)) env;
       V1Container.args := cmd;
       V1Container.image_pull_policy := image_pull_policy;
       V1Container.lifecycle := lifecycle_hooks;
       V1Container.resources :=
         V1ResourceRequirements.mk (Some requests) (Some limits);
       V1Container.volume_mounts := volume_mounts |} in
  Ok {| V1Pod.kind := "Pod";
        V1Pod.api_version := "v1";
        V1Pod.metadata := metadata;
        V1Pod.spec :=
          {| V1PodSpec.security_context := Some security_context;
             V1PodSpec.image_pull_secrets := image_pull_secrets;
             V1PodSpec.node_selector := node_selector;
             V1PodSpec.containers := [notebook_container];
             V1PodSpec.init_containers := init_containers;
             V1PodSpec.volumes := volumes |} |}.

Definition storage_class_key : string := "volume.beta.kubernetes.io/storage-class".

Definition make_pvc
    (name : string)
    (storage_class : option string)
    (access_modes : list string)
    (storage : pyval)
    (labels : gmap string string)
  : V1PersistentVolumeClaim.t :=
  let annotations : gmap string string := ∅ in
  let annotations :=
    match storage_class with
    | Some sc =>
        if negb (Str.is_empty sc)
        then {[ storage_class_key := sc ]} ∪ annotations
        else annotations
    | None => annotations
    end in
  let labels' : gmap string string := labels ∪ ∅ in
  {| V1PersistentVolumeClaim.kind := "PersistentVolumeClaim";
     V1PersistentVolumeClaim.api_version := "v1";
     V1PersistentVolumeClaim.metadata :=
       V1ObjectMeta.mk name (Some annotations) (Some labels');
     V1PersistentVolumeClaim.spec :=
       {| V1PersistentVolumeClaimSpec.access_modes := access_modes;
          V1PersistentVolumeClaimSpec.resources :=
            V1ResourceRequirements.mk (Some {[ "storage" := storage ]}) None |} |}.

Definition proxy_data_key : string := "hub.jupyter.org/proxy-data".
Definition proxy_routespec_key : string := "hub.jupyter.org/proxy-routespec".
Definition proxy_target_key : string := "hub.jupyter.org/proxy-target".

Definition proxy_labels : gmap string string :=
  {[ "heritage" := "jupyterhub";
     "component" := "singleuser-server";
     "hub.jupyter.org/proxy-route" := "true" ]}.

(** The [(host, path)] pair [make_ingress] reads off the route
    specification. *)
Definition routespec_host_path (routespec : string)
  : result (option string * string) :=
  if Str.startswith "/" routespec then Ok (None, routespec)
  else '(host, path) ← Str.unpack2 (Str.split1 "/" routespec);
       Ok (Some host, path).

Definition make_ingress (name routespec target : string) (data : pyval)
  : result (V1Endpoints.t * V1Service.t * V1beta1Ingress.t) :=
  let meta :=
    V1ObjectMeta.mk name
      (Some {[ proxy_data_key := Json.dumps data;
               proxy_routespec_key := routespec;
               proxy_target_key := target ]})
      (Some proxy_labels) in
  '(host, path) ← routespec_host_path routespec;
  target_parts ← Url.urlparse target;
  let target_ip := Url.hostname target_parts in
  target_port ← Url.port target_parts;
  let endpoint :=
    {| V1Endpoints.kind := "Endpoints";
       V1Endpoints.metadata := meta;
       V1Endpoints.subsets :=
         [ {| V1EndpointSubset.addresses := [V1EndpointAddress.mk target_ip];
              V1EndpointSubset.ports := [V1EndpointPort.mk target_port] |} ] |} in
  let service :=
    {| V1Service.kind := "Service";
       V1Service.metadata := meta;
       V1Service.spec :=
         V1ServiceSpec.mk [V1ServicePort.mk target_port target_port] |} in
  let ingress :=
    {| V1beta1Ingress.kind := "Ingress";
       V1beta1Ingress.metadata := meta;
       V1beta1Ingress.spec :=
         V1beta1IngressSpec.mk
           [ {| V1beta1IngressRule.host := host;
                V1beta1IngressRule.http :=
                  V1beta1HTTPIngressRuleValue.mk
                    [ {| V1beta1HTTPIngressPath.path := path;
                         V1beta1HTTPIngressPath.backend :=
                           V1beta1IngressBackend.mk name target_port |} ] |} ] |} in
  Ok (endpoint, service, ingress).

(** ** Notions used to state the properties *)

(** Induction on payloads, with the hypothesis for every element of a
    list, of a tuple and of a dictionary. *)
Section pyval_induction.

Variable P : pyval → Prop.
Hypothesis HNone : P PNone.
Hypothesis HBool : ∀ b, P (PBool b).
Hypothesis HInt : ∀ z, P (PInt z).
Hypothesis HStr : ∀ s, P (PStr s).
Hypothesis HList : ∀ l, Forall P l → P (PList l).
Hypothesis HTuple : ∀ l, Forall P l → P (PTuple l).
Hypothesis HDict : ∀ items, Forall (fun kv => P (snd kv)) items → P (PDict items).

Fixpoint pyval_nested_ind (v : pyval) : P v :=
  match v with
  | PNone => HNone
  | PBool b => HBool b
  | PInt z => HInt z
  | PStr s => HStr s
  | PList l =>
      HList l
        ((fix go (l : list pyval) : Forall P l :=
            match l with
            | [] => @List.Forall_nil _ _
            | x :: xs => @List.Forall_cons _ _ x xs (pyval_nested_ind x) (go xs)
            end) l)
  | PTuple l =>
      HTuple l
        ((fix go (l : list pyval) : Forall P l :=
            match l with
            | [] => @List.Forall_nil _ _
            | x :: xs => @List.Forall_cons _ _ x xs (pyval_nested_ind x) (go xs)
            end) l)
  | PDict items =>
      HDict items
        ((fix go (items : list (pykey * pyval))
            : Forall (fun kv => P (snd kv)) items :=
            match items with
            | [] => @List.Forall_nil _ _
            | kv :: kvs =>
                @List.Forall_cons _ _ kv kvs (pyval_nested_ind (snd kv)) (go kvs)
            end) items)
  end.

End pyval_induction.

(** The text stored under the proxy-data annotation of a metadata
    object. *)
Definition proxy_data (meta : V1ObjectMeta.t) : option string :=
  match V1ObjectMeta.annotations meta with
  | Some annotations => annotations !! proxy_data_key
  | None => None
  end.

(** The single rule and path of an [Ingress] as [make_ingress] builds it:
    host, path and backend port. *)
Definition ingress_route (ingress : V1beta1Ingress.t)
  : option (option string * string * option Z) :=
  match V1beta1IngressSpec.rules (V1beta1Ingress.spec ingress) with
  | [rule] =>
      match V1beta1HTTPIngressRuleValue.paths (V1beta1IngressRule.http rule) with
      | [p] =>
          Some (V1beta1IngressRule.host rule,
                V1beta1HTTPIngressPath.path p,
                V1beta1IngressBackend.service_port (V1beta1HTTPIngressPath.backend p))
      | _ => None
      end
  | _ => None
  end.

#[global] Instance pykey_eq_dec : EqDecision pykey.
Proof. solve_decision. Defined.

Definition is_str_key (k : pykey) : bool :=
  match k with
  | KStr _ => true
  | _ => false
  end.

(** The payloads JSON has a value for: [None], [bool], [int], [str],
    [list], and [dict] whose keys are distinct strings.  A [tuple], and a
    [dict] with a key that is not a [str], are serialised but come back as
    a [list] and as string keys. *)
Fixpoint json_native (v : pyval) : bool :=
  match v with
  | PNone | PBool _ | PInt _ | PStr _ => true
  | PTuple _ => false
  | PList l => forallb json_native l
  | PDict items =>
      forallb (fun kv => is_str_key (fst kv) && json_native (snd kv)) items
      && bool_decide (NoDup (map fst items))
  end.

(** Number of values in a payload, itself included. *)
Fixpoint size (v : pyval) : nat :=
  match v with
  | PNone | PBool _ | PInt _ | PStr _ => 1
  | PList l | PTuple l => S (list_sum (map size l))
  | PDict items => S (list_sum (map (fun kv => size (snd kv)) items))
  end.

(** What follows a value inside the output of [Json.dumps]: the end of
    the text, an item separator or a closing bracket. *)
Definition terminated (rest : string) : bool :=
  match rest with
  | EmptyString => true
  | String c _ => Ascii.eqb c "," || Ascii.eqb c "]" || Ascii.eqb c "}"
  end.

(** The characters of a plain host name: lower-case letters, digits,
    dots and hyphens. *)
Definition host_char (c : ascii) : bool :=
  Str.between 97 122 c || Str.is_ascii_digit c
  || Ascii.eqb c "." || Ascii.eqb c "-".

(** The characters of a network location [host:port] with such a host. *)
Definition netloc_char (c : ascii) : bool := host_char c || Ascii.eqb c ":".

(** The printable ASCII characters, the space included. *)
Definition printable (c : ascii) : bool := Str.between 32 126 c.

(** What JSON keeps of a payload: a tuple becomes a list, a dictionary
    key becomes the string [Json.dumps] writes for it, and of the keys
    that then collide the first keeps its place with the value of the
    last. *)
Fixpoint jsonify (v : pyval) : pyval :=
  match v with
  | PNone | PBool _ | PInt _ | PStr _ => v
  | PList l | PTuple l => PList (map jsonify l)
  | PDict items =>
      PDict (Json.dict_of_pairs
               (map (fun kv => (Json.key_str (fst kv), jsonify (snd kv))) items))
  end.

(** * Properties *)

#[local] Arguments Ascii.eqb : simpl never.

(** ** Results *)

Lemma bind_Ok {A B : Type} (c : result A) (k : A → result B) (b : B) :
  c ≫= k = Ok b ↔ ∃ a, c = Ok a ∧ k a = Ok b.
Proof.
  destruct c as [a|e]; simpl; split.
  - intros H. by exists a.
  - by intros (a' & [= <-] & H).
  - done.
  - by intros (a' & [=] & _).
Qed.

(** Evaluates the comparisons of two given characters in the goal. *)
Ltac ground_eqb :=
  repeat match goal with
  | |- context [Ascii.eqb ?a ?b] =>
      let v := eval vm_compute in (Ascii.eqb a b) in
      match v with
      | true => idtac
      | false => idtac
      end;
      change (Ascii.eqb a b) with v
  end.

(** ** Strings *)

Section StrFacts.
Import Str.

Lemma contains_false_startswith (c : ascii) (s : string) :
  contains c s = false → startswith (String c "") s = false.
Proof.
  destruct s as [|x s]; [done|]. simpl.
  rewrite (Ascii.eqb_sym c x). by destruct (Ascii.eqb x c).
Qed.

Lemma break_first_none (sep : ascii) (s : string) :
  contains sep s = false → break_first sep s = None.
Proof.
  induction s as [|x s IH]; simpl; [done|].
  destruct (Ascii.eqb x sep); [done|].
  intros H. by rewrite IH.
Qed.

Lemma break_first_app (sep : ascii) (a b : string) :
  contains sep a = false →
  break_first sep (a +:+ String sep b) = Some (a, b).
Proof.
  induction a as [|x a IH]; simpl.
  - by rewrite Ascii.eqb_refl.
  - destruct (Ascii.eqb x sep); [done|].
    intros H. by rewrite IH.
Qed.

End StrFacts.

(** ** [make_ingress]: the route specification *)

Lemma routespec_host_path_slash (routespec : string) :
  Str.startswith "/" routespec = true →
  routespec_host_path routespec = Ok (None, routespec).
Proof. intros H. unfold routespec_host_path. by rewrite H. Qed.

(** A route specification that names a host: the host is the text before
    the first slash, the path the text after it. *)
Lemma routespec_host_path_host (routespec host path : string) :
  Str.startswith "/" routespec = false →
  Str.break_first "/" routespec = Some (host, path) →
  routespec_host_path routespec = Ok (Some host, path).
Proof.
  intros H1 H2. unfold routespec_host_path, Str.split1. by rewrite H1, H2.
Qed.

Lemma routespec_host_path_no_slash (routespec : string) :
  Str.contains "/" routespec = false →
  routespec_host_path routespec = Raise (ValueError "not enough values to unpack").
Proof.
  intros H. unfold routespec_host_path, Str.split1.
  by rewrite (break_first_none _ _ H), (contains_false_startswith _ _ H).
Qed.

(** What [make_ingress] returns, in terms of the parsed route
    specification and target. *)
Lemma make_ingress_inv (name routespec target : string) (data : pyval)
    (endpoint : V1Endpoints.t) (service : V1Service.t) (ingress : V1beta1Ingress.t) :
  make_ingress name routespec target data = Ok (endpoint, service, ingress) →
  ∃ host path parts port,
    routespec_host_path routespec = Ok (host, path)
    ∧ Url.urlparse target = Ok parts
    ∧ Url.port parts = Ok port
    ∧ V1Endpoints.metadata endpoint = V1Service.metadata service
    ∧ V1beta1Ingress.metadata ingress = V1Service.metadata service
    ∧ V1Service.metadata service =
        V1ObjectMeta.mk name
          (Some {[ proxy_data_key := Json.dumps data;
                   proxy_routespec_key := routespec;
                   proxy_target_key := target ]})
          (Some proxy_labels)
    ∧ V1Endpoints.subsets endpoint =
        [ V1EndpointSubset.mk [V1EndpointAddress.mk (Url.hostname parts)]
                              [V1EndpointPort.mk port] ]
    ∧ V1Service.spec service = V1ServiceSpec.mk [V1ServicePort.mk port port]
    ∧ ingress_route ingress = Some (host, path, port)
    ∧ (V1Endpoints.kind endpoint, V1Service.kind service, V1beta1Ingress.kind ingress)
      = ("Endpoints", "Service", "Ingress").
Proof.
  unfold make_ingress. intros H.
  apply bind_Ok in H as ([host path] & Hr & H).
  apply bind_Ok in H as (parts & Hu & H).
  apply bind_Ok in H as (port & Hp & H).
  injection H as <- <- <-.
  exists host, path, parts, port. by repeat split.
Qed.


Lemma proxy_annotations_lookup (d r t : string) :
  let annotations : gmap string string :=
    {[ proxy_data_key := d; proxy_routespec_key := r; proxy_target_key := t ]} in
  annotations !! proxy_data_key = Some d
  ∧ annotations !! proxy_routespec_key = Some r
  ∧ annotations !! proxy_target_key = Some t.
Proof.
  unfold proxy_data_key, proxy_routespec_key, proxy_target_key.
  repeat split; by simplify_map_eq.
Qed.

(** C1.  On the code, a route specification that names a host loses the
    slash it is split at: ["example.com/foo"] gives host ["example.com"]
    and path ["foo"] (the claim says ["/foo"]), while ["/foo/bar"] gives no
    host and path ["/foo/bar"]. *)
Theorem make_ingress_routespec_examples (name : string) (data : pyval) :
  (∃ endpoint service ingress,
      make_ingress name "example.com/foo" "http://10.0.0.5:8000" data
      = Ok (endpoint, service, ingress)
      ∧ ingress_route ingress = Some (Some "example.com", "foo", Some 8000))
  ∧ (∃ endpoint service ingress,
      make_ingress name "/foo/bar" "http://10.0.0.5:8000" data
      = Ok (endpoint, service, ingress)
      ∧ ingress_route ingress = Some (None, "/foo/bar", Some 8000)).
Proof. split; by eexists _, _, _. Qed.

(** The general rule behind C1 on the code: with a host in front, the
    path is the text after the first slash, without that slash. *)
Lemma routespec_host_path_app (host path : string) :
  host ≠ "" → Str.contains "/" host = false →
  routespec_host_path (host +:+ String "/" path) = Ok (Some host, path).
Proof.
  intros Hne Hc. apply routespec_host_path_host.
  - destruct host as [|c h]; [done|]. simpl in *.
    rewrite (Ascii.eqb_sym "/" c). by destruct (Ascii.eqb c "/").
  - by apply break_first_app.
Qed.

(** C2, counterexample.  A target without a port, and a target that is
    no URL at all, do not make [make_ingress] fail: it returns the three
    objects with the missing parts [None]. *)
Lemma make_ingress_incomplete_target_returns :
  (∃ endpoint service ingress,
      make_ingress "jupyter-alice" "/user/alice/" "http://10.0.0.5" (PDict [])
      = Ok (endpoint, service, ingress)
      ∧ V1Endpoints.subsets endpoint =
          [ V1EndpointSubset.mk [V1EndpointAddress.mk (Some "10.0.0.5")]
                                [V1EndpointPort.mk None] ])
  ∧ (∃ endpoint service ingress,
      make_ingress "jupyter-alice" "/user/alice/" "10.0.0.5:8000" (PDict [])
      = Ok (endpoint, service, ingress)
      ∧ V1Endpoints.subsets endpoint =
          [ V1EndpointSubset.mk [V1EndpointAddress.mk None]
                                [V1EndpointPort.mk None] ]).
Proof. split; by eexists _, _, _. Qed.

(** C2, amended.  Once the route specification is parsed, [make_ingress]
    fails exactly when parsing the target raises, in [urlparse] or in
    reading the port, and then with that exception; otherwise it returns,
    and the endpoint carries the parsed host name and port, absent or
    not. *)
Theorem make_ingress_target_error (name routespec target : string) (data : pyval)
    (host : option string) (path : string) :
  routespec_host_path routespec = Ok (host, path) →
  match Url.urlparse target with
  | Raise e => make_ingress name routespec target data = Raise e
  | Ok parts =>
      match Url.port parts with
      | Raise e => make_ingress name routespec target data = Raise e
      | Ok port =>
          ∃ endpoint service ingress,
            make_ingress name routespec target data = Ok (endpoint, service, ingress)
            ∧ V1Endpoints.subsets endpoint =
                [ V1EndpointSubset.mk [V1EndpointAddress.mk (Url.hostname parts)]
                                      [V1EndpointPort.mk port] ]
      end
  end.
Proof.
  intros Hr. unfold make_ingress. rewrite Hr. simpl.
  destruct (Url.urlparse target) as [parts|e]; simpl; [|done].
  destruct (Url.port parts) as [port|e]; simpl; [|done].
  by eexists _, _, _.
Qed.

Lemma make_ingress_target_error_witness :
  routespec_host_path "/user/alice/" = Ok (None, "/user/alice/")
  ∧ make_ingress "jupyter-alice" "/user/alice/" "http://10.0.0.5:99999" (PDict [])
    = Raise (ValueError "Port out of range 0-65535").
Proof.
  split; [reflexivity|].
  exact (make_ingress_target_error "jupyter-alice" "/user/alice/"
           "http://10.0.0.5:99999" (PDict []) None "/user/alice/" eq_refl).
Defined.

(** C3, counterexample.  The route specification ["example.com"] neither
    starts with a slash nor contains one, and [make_ingress] raises. *)
Lemma make_ingress_host_only_raises :
  Str.startswith "/" "example.com" = false
  ∧ Str.contains "/" "example.com" = false
  ∧ make_ingress "jupyter-alice" "example.com" "http://10.0.0.5:8000" (PDict [])
    = Raise (ValueError "not enough values to unpack").
Proof. by repeat split. Qed.

(** C3, amended.  For a route specification that does not start with a
    slash and contains none, [make_ingress] does not return: unpacking the
    one-element result of the split into host and path raises
    [ValueError]. *)
Theorem make_ingress_no_slash_raises (name routespec target : string) (data : pyval) :
  Str.startswith "/" routespec = false →
  Str.contains "/" routespec = false →
  make_ingress name routespec target data
  = Raise (ValueError "not enough values to unpack").
Proof.
  intros _ Hc. unfold make_ingress.
  by rewrite (routespec_host_path_no_slash _ Hc).
Qed.

Lemma make_ingress_no_slash_raises_witness :
  Str.startswith "/" "hub.example.org" = false
  ∧ Str.contains "/" "hub.example.org" = false
  ∧ make_ingress "jupyter-bob" "hub.example.org" "http://10.0.0.7:8888" PNone
    = Raise (ValueError "not enough values to unpack").
Proof.
  split; [reflexivity|]. split; [reflexivity|].
  exact (make_ingress_no_slash_raises "jupyter-bob" "hub.example.org"
           "http://10.0.0.7:8888" PNone eq_refl eq_refl).
Defined.

(** C7.  Whenever [make_ingress] returns, the three objects carry the
    same metadata (the name, the annotations with the raw route
    specification, the raw target and the serialised payload, the proxy
    labels), and the endpoint port, the service port with its target port
    and the ingress backend port are all the port parsed from the target;
    for ["http://10.0.0.5:8000"] the address is ["10.0.0.5"] and the port
    8000. *)
Theorem make_ingress_shared_metadata_and_port
    (name routespec target : string) (data : pyval)
    (endpoint : V1Endpoints.t) (service : V1Service.t) (ingress : V1beta1Ingress.t) :
  make_ingress name routespec target data = Ok (endpoint, service, ingress) →
  let meta := V1Endpoints.metadata endpoint in
  V1Service.metadata service = meta
  ∧ V1beta1Ingress.metadata ingress = meta
  ∧ V1ObjectMeta.name meta = name
  ∧ (∃ annotations,
        V1ObjectMeta.annotations meta = Some annotations
        ∧ annotations !! proxy_routespec_key = Some routespec
        ∧ annotations !! proxy_target_key = Some target
        ∧ annotations !! proxy_data_key = Some (Json.dumps data))
  ∧ V1ObjectMeta.labels meta = Some proxy_labels
  ∧ ∃ parts port,
      Url.urlparse target = Ok parts
      ∧ Url.port parts = Ok port
      ∧ V1Endpoints.subsets endpoint =
          [ V1EndpointSubset.mk [V1EndpointAddress.mk (Url.hostname parts)]
                                [V1EndpointPort.mk port] ]
      ∧ V1Service.spec service = V1ServiceSpec.mk [V1ServicePort.mk port port]
      ∧ (∃ host path, ingress_route ingress = Some (host, path, port))
      ∧ (target = "http://10.0.0.5:8000" →
         Url.hostname parts = Some "10.0.0.5" ∧ port = Some 8000).
Proof.
  intros H meta.
  destruct (make_ingress_inv _ _ _ _ _ _ _ H)
    as (host & path & parts & port & Hr & Hu & Hp & He & Hi & Hs & Hsub & Hspec & Hroute & _).
  subst meta. rewrite He, Hi, Hs. simpl.
  destruct (proxy_annotations_lookup (Json.dumps data) routespec target)
    as (Hd & Hrs & Ht).
  split_and!; try done.
  - by eexists.
  - exists parts, port. split_and!; try done.
    + by exists host, path.
    + intros ->. vm_compute in Hu. injection Hu as <-.
      vm_compute in Hp. by injection Hp as <-.
Qed.

Lemma make_ingress_shared_metadata_and_port_witness :
  ∃ endpoint service ingress,
    make_ingress "jupyter-alice" "/user/alice/" "http://10.0.0.5:8000"
      (PDict [(KStr "user", PStr "alice")])
    = Ok (endpoint, service, ingress)
    ∧ V1Service.metadata service = V1Endpoints.metadata endpoint
    ∧ V1beta1Ingress.metadata ingress = V1Endpoints.metadata endpoint
    ∧ V1Endpoints.subsets endpoint =
        [ V1EndpointSubset.mk [V1EndpointAddress.mk (Some "10.0.0.5")]
                              [V1EndpointPort.mk (Some 8000)] ]
    ∧ V1Service.spec service
      = V1ServiceSpec.mk [V1ServicePort.mk (Some 8000) (Some 8000)]
    ∧ ingress_route ingress = Some (None, "/user/alice/", Some 8000).
Proof.
  eexists _, _, _. split; [reflexivity|].
  pose proof (make_ingress_shared_metadata_and_port "jupyter-alice" "/user/alice/"
    "http://10.0.0.5:8000" (PDict [(KStr "user", PStr "alice")]) _ _ _ eq_refl) as H.
  by repeat split.
Defined.

(** C10.  The target ["http://10.0.0.5:abc"] has the host name
    ["10.0.0.5"], and reading its port raises [ValueError]; so does
    [make_ingress], for every route specification it can parse. *)
Theorem make_ingress_non_numeric_port (name routespec : string) (data : pyval) :
  (∃ parts,
      Url.urlparse "http://10.0.0.5:abc" = Ok parts
      ∧ Url.hostname parts = Some "10.0.0.5"
      ∧ Url.port parts = Raise (ValueError "Port could not be cast to integer value"))
  ∧ make_ingress name routespec "http://10.0.0.5:abc" data
    = (_ ← routespec_host_path routespec;
       Raise (ValueError "Port could not be cast to integer value"))
  ∧ make_ingress name "/user/alice/" "http://10.0.0.5:abc" data
    = Raise (ValueError "Port could not be cast to integer value").
Proof.
  split; [by eexists|]. split; [|done].
  unfold make_ingress.
  by destruct (routespec_host_path routespec) as [[host path]|e].
Qed.

(** ** [make_pod] *)


Lemma int_unless_none_cases (x : pyval) (r : option Z) :
  int_unless_none x = Ok r ↔
  (x = PNone ∧ r = None) ∨ (x ≠ PNone ∧ ∃ n, Py.int x = Ok n ∧ r = Some n).
Proof.
  unfold int_unless_none. split.
  - destruct x; cbv beta iota; try (intros [= <-]; by left);
      intros H; right; (split; [done|]);
      apply bind_Ok in H as (n & Hn & [= <-]); by exists n.
  - intros [[-> ->]|[Hx (n & Hn & ->)]]; [done|].
    destruct x; try done; cbv beta iota; by rewrite Hn.
Qed.

Section make_pod_facts.

Context (name image_spec image_pull_policy : string)
        (image_pull_secret : option string)
        (port : Z)
        (cmd : list string)
        (node_selector : option (gmap string string))
        (run_as_uid fs_gid : pyval)
        (env : list (string * string))
        (working_dir : option string)
        (volumes volume_mounts : list pyval)
        (labels : gmap string string)
        (cpu_limit cpu_guarantee mem_limit mem_guarantee : pyval)
        (lifecycle_hooks : pyval)
        (init_containers : list pyval).

#[local] Abbreviation the_pod :=
  (make_pod name image_spec image_pull_policy image_pull_secret port cmd
     node_selector run_as_uid fs_gid env working_dir volumes volume_mounts
     labels cpu_limit cpu_guarantee mem_limit mem_guarantee lifecycle_hooks
     init_containers).

(** [make_pod] returns exactly when the two ids, where given, convert to
    integers. *)
Lemma make_pod_returns :
  returns the_pod ↔
  returns (int_unless_none fs_gid) ∧ returns (int_unless_none run_as_uid).
Proof.
  unfold returns, make_pod. split.
  - intros [pod H].
    apply bind_Ok in H as (g & Hg & H). apply bind_Ok in H as (u & Hu & H).
    split; by eexists.
  - intros [[g Hg] [u Hu]]. rewrite Hg. simpl. rewrite Hu. simpl. by eexists.
Qed.


(** C5.  [make_pod] returns exactly when the ids that are given convert
    to integers, and the pod then always has a security context, whose
    [fs_group] is absent when [fs_gid] is [None] and is [int(fs_gid)]
    otherwise, and whose [run_as_user] is absent when [run_as_uid] is
    [None] and is [int(run_as_uid)] otherwise, the one whatever the
    other. *)
Theorem make_pod_security_context :
  (returns the_pod ↔
   returns (int_unless_none fs_gid) ∧ returns (int_unless_none run_as_uid))
  ∧ ∀ pod, the_pod = Ok pod →
      ∃ security_context,
        V1PodSpec.security_context (V1Pod.spec pod) = Some security_context
        ∧ ((fs_gid = PNone
            ∧ V1PodSecurityContext.fs_group security_context = None)
           ∨ (fs_gid ≠ PNone
              ∧ ∃ n, Py.int fs_gid = Ok n
                  ∧ V1PodSecurityContext.fs_group security_context = Some n))
        ∧ ((run_as_uid = PNone
            ∧ V1PodSecurityContext.run_as_user security_context = None)
           ∨ (run_as_uid ≠ PNone
              ∧ ∃ n, Py.int run_as_uid = Ok n
                  ∧ V1PodSecurityContext.run_as_user security_context = Some n)).
Proof.
  split; [apply make_pod_returns|].
  unfold make_pod. intros pod H.
  apply bind_Ok in H as (g & Hg & H). apply bind_Ok in H as (u & Hu & H).
  injection H as <-. simpl.
  eexists. split; [done|]. simpl.
  split; by apply int_unless_none_cases.
Qed.

(** C6.  In the pod [make_pod] returns, the image pull secrets are unset
    when [image_pull_secret] is [None], and are the list of the one
    reference named [image_pull_secret] otherwise. *)
Theorem make_pod_image_pull_secrets (pod : V1Pod.t) :
  the_pod = Ok pod →
  V1PodSpec.image_pull_secrets (V1Pod.spec pod) =
    match image_pull_secret with
    | None => None
    | Some secret => Some [V1LocalObjectReference.mk secret]
    end.
Proof.
  unfold make_pod. intros H.
  apply bind_Ok in H as (g & Hg & H). apply bind_Ok in H as (u & Hu & H).
  injection H as <-. simpl. by destruct image_pull_secret.
Qed.

End make_pod_facts.


Lemma make_pod_security_context_witness :
  ∃ pod,
    make_pod "jupyter-alice" "jupyter/singleuser:latest" "IfNotPresent"
      None 8888 ["jupyterhub-singleuser"] None PNone (PStr "100")
      [] None [] [] ∅ PNone PNone PNone PNone PNone []
    = Ok pod
    ∧ ∃ security_context,
        V1PodSpec.security_context (V1Pod.spec pod) = Some security_context
        ∧ ((PStr "100" = PNone
            ∧ V1PodSecurityContext.fs_group security_context = None)
           ∨ (PStr "100" ≠ PNone
              ∧ ∃ n, Py.int (PStr "100") = Ok n
                  ∧ V1PodSecurityContext.fs_group security_context = Some n))
        ∧ ((PNone = PNone
            ∧ V1PodSecurityContext.run_as_user security_context = None)
           ∨ (PNone ≠ PNone
              ∧ ∃ n, Py.int PNone = Ok n
                  ∧ V1PodSecurityContext.run_as_user security_context = Some n)).
Proof.
  eexists. split; [reflexivity|].
  exact (proj2 (make_pod_security_context "jupyter-alice" "jupyter/singleuser:latest"
           "IfNotPresent" None 8888 ["jupyterhub-singleuser"] None PNone (PStr "100")
           [] None [] [] ∅ PNone PNone PNone PNone PNone []) _ eq_refl).
Defined.

(** The four combinations of the two ids, on an otherwise fixed input. *)
Example make_pod_security_context_combinations :
  let context := fun run_as_uid fs_gid =>
    pod ← make_pod "jupyter-alice" "jupyter/singleuser:latest" "IfNotPresent"
            None 8888 [] None run_as_uid fs_gid [] None [] [] ∅
            PNone PNone PNone PNone PNone [];
    Ok (V1PodSpec.security_context (V1Pod.spec pod)) in
  context PNone PNone = Ok (Some (V1PodSecurityContext.mk None None))
  ∧ context PNone (PInt 100) = Ok (Some (V1PodSecurityContext.mk (Some 100) None))
  ∧ context (PInt 1000) PNone = Ok (Some (V1PodSecurityContext.mk None (Some 1000)))
  ∧ context (PInt 1000) (PInt 100)
    = Ok (Some (V1PodSecurityContext.mk (Some 100) (Some 1000)))
  ∧ context PNone (PStr "staff")
    = Raise (ValueError "invalid literal for int() with base 10").
Proof. by split_and!. Qed.

Lemma make_pod_image_pull_secrets_witness :
  ∃ pod,
    make_pod "jupyter-alice" "jupyter/singleuser:latest" "IfNotPresent"
      (Some "regcred") 8888 ["jupyterhub-singleuser"] None PNone PNone
      [] None [] [] ∅ PNone PNone PNone PNone PNone []
    = Ok pod
    ∧ V1PodSpec.image_pull_secrets (V1Pod.spec pod)
      = Some [V1LocalObjectReference.mk "regcred"].
Proof.
  eexists. split; [reflexivity|].
  exact (make_pod_image_pull_secrets "jupyter-alice" "jupyter/singleuser:latest"
           "IfNotPresent" (Some "regcred") 8888 ["jupyterhub-singleuser"] None
           PNone PNone [] None [] [] ∅ PNone PNone PNone PNone PNone [] _ eq_refl).
Defined.

(** ** [make_pvc] *)

(** The empty string counts as no storage class: the guard of
    [make_pvc] is [if storage_class:]. *)
Lemma make_pvc_empty_storage_class :
  ∃ annotations,
    V1ObjectMeta.annotations
      (V1PersistentVolumeClaim.metadata
         (make_pvc "claim-alice" (Some "") ["ReadWriteOnce"] (PStr "10Gi") ∅))
    = Some annotations
    ∧ annotations !! storage_class_key = None.
Proof. by eexists. Qed.


(** ** [json.loads] after [json.dumps] *)

Section JsonFacts.
Import Str Json.

Lemma append_nil_l (b : string) : "" +:+ b = b.
Proof. reflexivity. Qed.

Lemma append_cons (x : ascii) (a b : string) :
  String x a +:+ b = String x (a +:+ b).
Proof. reflexivity. Qed.

Lemma append_assoc (a b c : string) : (a +:+ b) +:+ c = a +:+ (b +:+ c).
Proof.
  induction a as [|x a IH]; [done|]. rewrite !append_cons. by f_equal.
Qed.

Lemma length_append (a b : string) :
  String.length (a +:+ b) = (String.length a + String.length b)%nat.
Proof.
  induction a as [|x a IH]; [done|]. rewrite append_cons. simpl. by f_equal.
Qed.

(** *** Strings *)

(** Scanning the replacement of a character gives the character back. *)
Lemma scanstring_escape_char (c : ascii) (t : string) :
  scanstring (escape_char c +:+ t)
  = ('(t', rest) ← scanstring t; Ok (String c t', rest)).
Proof. destruct c as [[] [] [] [] [] [] [] []]; reflexivity. Qed.

Lemma scanstring_escape (s rest : string) :
  scanstring (escape s +:+ String dquote rest) = Ok (s, rest).
Proof.
  induction s as [|c s IH]; [done|].
  cbn [escape]. by rewrite append_assoc, scanstring_escape_char, IH.
Qed.

Lemma encode_basestring_ascii_head (s rest : string) :
  encode_basestring_ascii s +:+ rest
  = String dquote (escape s +:+ String dquote rest).
Proof.
  unfold encode_basestring_ascii. by rewrite append_cons, append_assoc.
Qed.

(** *** Integers *)

Lemma terminated_not_number (rest : string) :
  terminated rest = true →
  starts_with_digit rest = false ∧ has_frac rest = false ∧ has_exp rest = false.
Proof.
  destruct rest as [|c r]; [done|].
  destruct c as [[] [] [] [] [] [] [] []]; try discriminate; done.
Qed.

Lemma span_digits_uint (d : Decimal.uint) (rest : string) :
  starts_with_digit rest = false →
  span is_ascii_digit (NilEmpty.string_of_uint d +:+ rest)
  = (NilEmpty.string_of_uint d, rest).
Proof.
  intros Hrest.
  induction d as [|d IH|d IH|d IH|d IH|d IH|d IH|d IH|d IH|d IH|d IH];
    cbn [NilEmpty.string_of_uint];
    rewrite ?append_cons, ?append_nil_l; cbn [span];
    try (change (is_ascii_digit _) with true; cbv iota; by rewrite IH).
  destruct rest as [|c r]; [done|]. cbn in Hrest. cbn [span]. by rewrite Hrest.
Qed.

Lemma digits_value_uint (d : Decimal.uint) (acc : positive) :
  digits_value (Z.pos acc) (NilEmpty.string_of_uint d)
  = Z.pos (Pos.of_uint_acc d acc).
Proof.
  revert acc.
  induction d as [|d IH|d IH|d IH|d IH|d IH|d IH|d IH|d IH|d IH|d IH];
    intros acc; cbn [NilEmpty.string_of_uint digits_value Pos.of_uint_acc];
    [done|..]; rewrite <- IH; f_equal;
    match goal with
    | |- context [digit_value ?c] =>
        let v := eval vm_compute in (digit_value c) in
        change (digit_value c) with v
    end; lia.
Qed.

(** The decimal digits of a positive number start with a non-zero
    digit. *)
Lemma to_uint_head (p : positive) :
  Pos.to_uint p ≠ Decimal.Nil ∧ ∀ d, Pos.to_uint p ≠ Decimal.D0 d.
Proof.
  split; [apply Unsigned.to_uint_nonnil|]. intros d Hd.
  pose proof (Unsigned.to_of (Pos.to_uint p)) as Hnorm.
  rewrite Unsigned.of_to in Hnorm. cbn [N.to_uint] in Hnorm.
  pose proof (Unsigned.to_uint_nonzero p) as Hnz.
  destruct (Decimal.nzhead (Pos.to_uint p)) eqn:Hh;
    try (rewrite unorm_nzhead in Hnorm by (by rewrite Hh);
         rewrite Hh, Hd in Hnorm; discriminate Hnorm).
  - assert (Decimal.unorm (Pos.to_uint p) = Decimal.zero) as Hz
      by (by apply unorm_0).
    by rewrite <- Hnorm in Hz.
  - by apply nzhead_nonzero in Hh.
Qed.

Lemma match_digits_pos (p : positive) (rest : string) :
  starts_with_digit rest = false →
  match_digits (NilEmpty.string_of_uint (Pos.to_uint p) +:+ rest)
  = Some (NilEmpty.string_of_uint (Pos.to_uint p), rest)
  ∧ ∃ c t, NilEmpty.string_of_uint (Pos.to_uint p) = String c t
           ∧ is_ascii_digit c = true.
Proof.
  intros Hrest. destruct (to_uint_head p) as [Hnil Hzero].
  destruct (Pos.to_uint p) as [|d|d|d|d|d|d|d|d|d|d]; try done;
    try (by destruct (Hzero d));
    cbn [NilEmpty.string_of_uint]; rewrite append_cons;
    (split; [|by eexists _, _]);
    unfold match_digits;
    change (Ascii.eqb _ "0") with false; change (between 49 57 _) with true;
    cbv iota; by rewrite span_digits_uint.
Qed.

Lemma digits_value_pos (p : positive) :
  digits_value 0 (NilEmpty.string_of_uint (Pos.to_uint p)) = Z.pos p.
Proof.
  destruct (to_uint_head p) as [Hnil Hzero].
  pose proof (Unsigned.of_to p) as Hp.
  destruct (Pos.to_uint p) as [|d|d|d|d|d|d|d|d|d|d]; try done;
    try (by destruct (Hzero d));
    cbn [NilEmpty.string_of_uint digits_value];
    match goal with
    | |- context [10 * 0 + digit_value ?c] =>
        let v := eval vm_compute in (10 * 0 + digit_value c) in
        change (10 * 0 + digit_value c) with v
    end;
    rewrite digits_value_uint; cbn [Pos.of_uint] in Hp; by injection Hp as ->.
Qed.

Lemma int_repr_pos (p : positive) :
  int_repr (Z.pos p) = NilEmpty.string_of_uint (Pos.to_uint p).
Proof.
  unfold int_repr. cbn [Z.to_int NilZero.string_of_int NilZero.string_of_uint].
  destruct (to_uint_head p) as [Hnil _]. by destruct (Pos.to_uint p).
Qed.

Lemma int_repr_neg (p : positive) :
  int_repr (Z.neg p) = String "-" (NilEmpty.string_of_uint (Pos.to_uint p)).
Proof.
  unfold int_repr. cbn [Z.to_int NilZero.string_of_int NilZero.string_of_uint].
  destruct (to_uint_head p) as [Hnil _]. by destruct (Pos.to_uint p).
Qed.

(** The text of an integer starts with a minus sign or a digit. *)
Lemma int_repr_head (z : Z) :
  ∃ c t, int_repr z = String c t ∧ (c = "-"%char ∨ is_ascii_digit c = true).
Proof.
  destruct z as [|p|p].
  - exists "0"%char, "". by split; [|right].
  - destruct (match_digits_pos p "" eq_refl) as (_ & c & t & Hs & Hc).
    exists c, t. rewrite int_repr_pos. by split; [|right].
  - rewrite int_repr_neg. eexists _, _. by split; [|left].
Qed.

Lemma match_integer_digit (c : ascii) (t : string) :
  is_ascii_digit c = true →
  match_integer (String c t)
  = ('(ds, rest) ← match_digits (String c t); Some (false, ds, rest)).
Proof.
  intros Hc. unfold match_integer.
  destruct (Ascii.eqb c "-") eqn:Heq; [|done].
  apply Ascii.eqb_eq in Heq as ->. done.
Qed.

Lemma scan_number_int_repr (z : Z) (rest : string) :
  terminated rest = true →
  scan_number (int_repr z +:+ rest) = Ok (PInt z, rest).
Proof.
  intros Hrest.
  destruct (terminated_not_number rest Hrest) as (Hd & Hf & He).
  unfold scan_number. destruct z as [|p|p].
  - change (int_repr 0) with "0". rewrite append_cons, append_nil_l.
    rewrite (match_integer_digit "0" rest eq_refl). unfold match_digits.
    ground_eqb. cbn -[has_frac has_exp]. by rewrite Hf, He.
  - rewrite int_repr_pos.
    destruct (match_digits_pos p rest Hd) as (Hm & c & t & Hs & Hc).
    rewrite Hs, append_cons, (match_integer_digit _ _ Hc).
    rewrite <- append_cons, <- Hs, Hm. cbn -[has_frac has_exp digits_value].
    by rewrite Hf, He, digits_value_pos.
  - rewrite int_repr_neg, append_cons.
    destruct (match_digits_pos p rest Hd) as (Hm & _).
    unfold match_integer. change (Ascii.eqb "-" "-") with true. cbv iota.
    rewrite Hm. cbn -[has_frac has_exp digits_value].
    by rewrite Hf, He, digits_value_pos.
Qed.

(** A text that starts with a minus sign or a digit is scanned as a
    number. *)
Lemma scan_once_number (fuel : nat) (c : ascii) (t : string) :
  c = "-"%char ∨ is_ascii_digit c = true →
  scan_once (S fuel) (String c t) = scan_number (String c t).
Proof.
  intros [->|Hc]; [done|].
  destruct c as [[] [] [] [] [] [] [] []]; try discriminate Hc; done.
Qed.

Lemma scan_once_int (fuel : nat) (z : Z) (rest : string) :
  terminated rest = true →
  scan_once (S fuel) (int_repr z +:+ rest) = Ok (PInt z, rest).
Proof.
  intros Hrest. destruct (int_repr_head z) as (c & t & Hs & Hc).
  rewrite <- (scan_number_int_repr z rest Hrest).
  rewrite Hs, append_cons. by apply scan_once_number.
Qed.

End JsonFacts.

Section JsonStructure.
Import Str Json.
#[local] Arguments Ascii.eqb : simpl nomatch.

(** *** Lists and dictionaries *)

Lemma append_nil_r (a : string) : a +:+ "" = a.
Proof. induction a as [|x a IH]; [done|]. rewrite append_cons. by f_equal. Qed.

Lemma dumps_list_cons (x : pyval) (xs : list pyval) :
  dumps (PList (x :: xs)) = "[" +:+ dumps x +:+ join_items dumps "]" xs.
Proof. reflexivity. Qed.

Lemma dumps_dict_cons (kv : pykey * pyval) (kvs : list (pykey * pyval)) :
  dumps (PDict (kv :: kvs)) = "{" +:+ dict_item kv +:+ join_items dict_item "}" kvs.
Proof. reflexivity. Qed.

Lemma join_items_cons {A : Type} (enc : A → string) (close : string)
    (y : A) (ys : list A) :
  join_items enc close (y :: ys) = ", " +:+ enc y +:+ join_items enc close ys.
Proof. reflexivity. Qed.

(** The text of a value starts with a character that is neither white
    space nor a closing bracket. *)
Lemma dumps_head (v : pyval) (rest : string) :
  skip_ws (dumps v +:+ rest) = dumps v +:+ rest
  ∧ startswith "]" (dumps v +:+ rest) = false.
Proof.
  destruct v as [|[]|z|s|[|x xs]|[|x xs]|[|kv kvs]]; try done.
  destruct (int_repr_head z) as (c & t & Hs & Hc).
  cbn [dumps]. rewrite Hs, append_cons. destruct Hc as [->|Hc]; [done|].
  destruct c as [[] [] [] [] [] [] [] []]; try discriminate Hc; done.
Qed.

Lemma join_items_head {A : Type} (enc : A → string) (close : ascii)
    (xs : list A) (rest : string) :
  close = "]"%char ∨ close = "}"%char →
  terminated (join_items enc (String close "") xs +:+ rest) = true
  ∧ skip_ws (join_items enc (String close "") xs +:+ rest)
    = join_items enc (String close "") xs +:+ rest.
Proof. intros [-> | ->]; by destruct xs. Qed.

Lemma array_items_join (scan : string → result (pyval * string)) (xs : list pyval) :
  ∀ (fuel : nat) (x : pyval) (rest : string),
    Forall (fun y => ∀ r, terminated r = true → scan (dumps y +:+ r) = Ok (y, r))
           (x :: xs) →
    (length xs < fuel)%nat →
    array_items scan fuel (dumps x +:+ join_items dumps "]" xs +:+ rest)
    = Ok (x :: xs, rest).
Proof.
  induction xs as [|y ys IH]; intros fuel x rest Hall Hfuel;
    (destruct fuel as [|fuel]; [simpl in Hfuel; lia|]);
    apply Forall_cons in Hall as [Hx Hall]; cbn [array_items].
  - rewrite Hx by done. done.
  - destruct (join_items_head dumps "]" (y :: ys) rest (or_introl eq_refl)) as [Ht Hs].
    rewrite Hx by done. cbn [mbind result_bind]. cbv beta iota.
    rewrite Hs, join_items_cons, !append_cons, append_nil_l. cbn.
    rewrite append_assoc.
    rewrite (proj1 (dumps_head y _)).
    rewrite IH; [done|done|simpl in Hfuel; lia].
Qed.

Lemma dict_item_head (k : pykey) (v : pyval) (tail : string) :
  dict_item (k, v) +:+ tail
  = String dquote (escape (key_str k) +:+ String dquote (": " +:+ dumps v +:+ tail)).
Proof.
  unfold dict_item. cbn [fst snd].
  by rewrite append_assoc, encode_basestring_ascii_head, append_assoc.
Qed.

Lemma object_items_join (scan : string → result (pyval * string))
    (kvs : list (pykey * pyval)) :
  ∀ (fuel : nat) (k : string) (v : pyval) (rest : string),
    (∀ r, terminated r = true → scan (dumps v +:+ r) = Ok (v, r)) →
    Forall (fun kv => ∀ r, terminated r = true →
                      scan (dumps (snd kv) +:+ r) = Ok (snd kv, r)) kvs →
    (length kvs < fuel)%nat →
    object_items scan fuel
      (escape k +:+ String dquote
         (": " +:+ dumps v +:+ join_items dict_item "}" kvs +:+ rest))
    = Ok ((k, v) :: map (fun kv => (key_str (fst kv), snd kv)) kvs, rest).
Proof.
  induction kvs as [|[k' v'] kvs IH]; intros fuel k v rest Hv Hall Hfuel;
    (destruct fuel as [|fuel]; [simpl in Hfuel; lia|]);
    cbn [object_items]; rewrite scanstring_escape;
    cbn [mbind result_bind]; cbv beta iota;
    rewrite !append_cons, append_nil_l; cbn;
    rewrite (proj1 (dumps_head v _)).
  - rewrite Hv by done. done.
  - apply Forall_cons in Hall as [Hv' Hall].
    destruct (join_items_head dict_item "}" ((k', v') :: kvs) rest
                (or_intror eq_refl)) as [Ht Hs].
    rewrite Hv by done. cbn [mbind result_bind]. cbv beta iota.
    rewrite !append_assoc, !append_cons, append_nil_l. cbn.
    rewrite dict_item_head. cbn.
    rewrite IH; [done|done|done|simpl in Hfuel; lia].
Qed.

(** *** Building the dictionary *)

Lemma dict_set_fresh (k : string) (v : pyval) (d : list (string * pyval)) :
  k ∉ map fst d → dict_set k v d = (d ++ [(k, v)])%list.
Proof.
  induction d as [|[k' v'] d IH]; [done|]. cbn [map fst dict_set].
  rewrite not_elem_of_cons. intros [Hne Hnotin].
  rewrite (proj2 (String.eqb_neq k k')) by done. by rewrite IH.
Qed.

Lemma fold_dict_set (pairs acc : list (string * pyval)) :
  NoDup (map fst (acc ++ pairs)%list) →
  fold_left (fun d kv => dict_set (fst kv) (snd kv) d) pairs acc
  = (acc ++ pairs)%list.
Proof.
  revert acc. induction pairs as [|[k v] pairs IH]; intros acc Hnd.
  - by rewrite app_nil_r.
  - cbn [fold_left fst snd]. rewrite dict_set_fresh.
    + rewrite IH; rewrite <- app_assoc; [done|]. exact Hnd.
    + rewrite map_app in Hnd. apply NoDup_app in Hnd as (_ & Hdisj & _).
      intros Hin. apply (Hdisj k Hin). cbn [map fst]. apply elem_of_cons. by left.
Qed.

Lemma dict_of_pairs_items (items : list (pykey * pyval)) :
  forallb (fun kv => is_str_key (fst kv)) items = true →
  NoDup (map fst items) →
  dict_of_pairs (map (fun kv => (key_str (fst kv), snd kv)) items) = items.
Proof.
  intros Hstr Hnd. unfold dict_of_pairs. rewrite fold_dict_set.
  - cbn [app]. rewrite map_map. cbn [fst snd].
    induction items as [|[k v] items IH]; [done|]. cbn [map forallb fst snd] in *.
    apply andb_prop in Hstr as [Hk Hstr]. apply NoDup_cons in Hnd as [_ Hnd].
    rewrite IH by done. by destruct k.
  - cbn [app]. rewrite map_map. cbn [fst].
    induction items as [|[k v] items IH]; [constructor|].
    cbn [map forallb fst snd] in *.
    apply andb_prop in Hstr as [Hk Hstr]. apply NoDup_cons in Hnd as [Hnotin Hnd].
    apply NoDup_cons. split; [|by apply IH].
    intros Hin. apply Hnotin. clear IH Hnd Hnotin.
    induction items as [|[k' v'] items IH]; [by apply elem_of_nil in Hin|].
    cbn [map forallb fst snd] in *.
    apply andb_prop in Hstr as [Hk' Hstr].
    apply elem_of_cons in Hin as [Heq|Hin]; apply elem_of_cons.
    + left. destruct k, k'; try done. cbn in Heq. by subst.
    + right. by apply IH.
Qed.

(** *** Fuel *)

Lemma size_pos (v : pyval) : (1 ≤ size v)%nat.
Proof. destruct v; simpl; lia. Qed.

Lemma size_list (l : list pyval) : size (PList l) = S (list_sum (map size l)).
Proof. reflexivity. Qed.

Lemma size_dict (items : list (pykey * pyval)) :
  size (PDict items) = S (list_sum (map (fun kv => size (snd kv)) items)).
Proof. reflexivity. Qed.

Lemma size_elem (l : list pyval) (y : pyval) :
  y ∈ l → (size y ≤ list_sum (map size l))%nat.
Proof.
  induction l as [|x l IH]; [by intros ?%elem_of_nil|].
  intros [->|Hin]%elem_of_cons; simpl; [lia|].
  specialize (IH Hin). lia.
Qed.

Lemma length_le_sum {A : Type} (sz : A → nat) (l : list A) :
  (∀ a, (1 ≤ sz a)%nat) → (length l ≤ list_sum (map sz l))%nat.
Proof.
  intros Hsz. induction l as [|x l IH]; [done|]. simpl.
  pose proof (Hsz x). lia.
Qed.

Lemma size_item_elem (items : list (pykey * pyval)) (kv : pykey * pyval) :
  kv ∈ items →
  (size (snd kv) ≤ list_sum (map (fun kv => size (snd kv)) items))%nat.
Proof.
  induction items as [|x l IH]; [by intros ?%elem_of_nil|].
  intros [->|Hin]%elem_of_cons; simpl; [lia|].
  specialize (IH Hin). lia.
Qed.

Lemma join_items_length {A : Type} (enc : A → string) (sz : A → nat)
    (close : string) (xs : list A) :
  Forall (fun a => (sz a ≤ String.length (enc a))%nat) xs →
  (list_sum (map sz xs) ≤ String.length (join_items enc close xs))%nat.
Proof.
  induction xs as [|y ys IH]; intros Hall; [cbn; lia|].
  apply Forall_cons in Hall as [Hy Hall]. specialize (IH Hall).
  rewrite join_items_cons, !length_append. simpl. lia.
Qed.

Lemma size_le_length (v : pyval) : (size v ≤ String.length (dumps v))%nat.
Proof.
  induction v as [|b|z|s|l IH|l IH|items IH] using pyval_nested_ind.
  - cbn. lia.
  - destruct b; cbn; lia.
  - destruct (int_repr_head z) as (c & t & Hs & _). cbn [dumps size].
    rewrite Hs. cbn. lia.
  - cbn. lia.
  - destruct l as [|x xs]; [cbn; lia|].
    apply Forall_cons in IH as [Hx Hxs].
    rewrite dumps_list_cons, !length_append. cbn [size map list_sum].
    pose proof (join_items_length dumps size "]" xs Hxs) as Hj.
    simpl in Hj |- *. lia.
  - destruct l as [|x xs]; [cbn; lia|].
    apply Forall_cons in IH as [Hx Hxs].
    change (dumps (PTuple (x :: xs))) with (dumps (PList (x :: xs))).
    rewrite dumps_list_cons, !length_append. cbn [size map list_sum].
    pose proof (join_items_length dumps size "]" xs Hxs) as Hj.
    simpl in Hj |- *. lia.
  - destruct items as [|kv kvs]; [cbn; lia|].
    assert (Forall (fun kv => (size (snd kv) ≤ String.length (dict_item kv))%nat)
                   (kv :: kvs)) as Hitems.
    { eapply Forall_impl; [exact IH|]. intros [k v] Hkv. unfold dict_item.
      rewrite !length_append. cbn [snd] in *. lia. }
    apply Forall_cons in Hitems as [Hkv Hkvs].
    rewrite dumps_dict_cons, !length_append. cbn [size map list_sum].
    pose proof (join_items_length dict_item (fun kv => size (snd kv)) "}" kvs Hkvs)
      as Hj.
    simpl in Hj, Hkv |- *. lia.
Qed.

(** *** The round trip *)

(** Scanning the text of a payload JSON has a value for gives the payload
    back, and stops right after it. *)
Lemma scan_once_dumps (v : pyval) :
  json_native v = true →
  ∀ (fuel : nat) (rest : string),
    (size v ≤ fuel)%nat → terminated rest = true →
    scan_once fuel (dumps v +:+ rest) = Ok (v, rest).
Proof.
  induction v as [|b|z|s|l IH|l IH|items IH] using pyval_nested_ind;
    intros Hnative fuel rest Hfuel Hrest;
    (destruct fuel as [|fuel]; [cbn in Hfuel; lia|]).
  - done.
  - by destruct b.
  - by apply scan_once_int.
  - cbn [dumps]. rewrite encode_basestring_ascii_head. cbn.
    by rewrite scanstring_escape.
  - destruct l as [|x xs]; [done|].
    rewrite dumps_list_cons, !append_assoc, append_cons, append_nil_l.
    cbn [scan_once]. cbn [Ascii.eqb]. ground_eqb. cbv iota.
    destruct (dumps_head x (join_items dumps "]" xs +:+ rest)) as [-> ->].
    rewrite size_list in Hfuel. cbn [json_native] in Hnative.
    rewrite array_items_join; [done| |].
    + apply Forall_forall. intros y Hy r Hr.
      rewrite Forall_forall in IH. apply IH; [done| | |done].
      * rewrite forallb_forall in Hnative. apply Hnative.
        by apply list_elem_of_In.
      * pose proof (size_elem _ _ Hy). lia.
    + pose proof (length_le_sum size (x :: xs) size_pos) as Hlen.
      cbn [length] in Hlen. lia.
  - done.
  - destruct items as [|[k v] kvs]; [done|].
    cbn [json_native] in Hnative.
    apply andb_prop in Hnative as [Hnative Hnodup].
    apply bool_decide_eq_true in Hnodup.
    assert (forallb (fun kv => is_str_key (fst kv)) ((k, v) :: kvs) = true
            ∧ forallb (fun kv => json_native (snd kv)) ((k, v) :: kvs) = true)
      as [Hkeys Hvalues].
    { clear -Hnative. induction ((k, v) :: kvs) as [|kv l IHl]; [done|].
      cbn [forallb] in *. apply andb_prop in Hnative as [Hkv Hl].
      apply andb_prop in Hkv as [-> ->]. destruct (IHl Hl) as [-> ->]. done. }
    rewrite dumps_dict_cons, !append_assoc, append_cons, append_nil_l.
    rewrite dict_item_head.
    cbn [scan_once]. ground_eqb. cbv iota.
    unfold skip_ws. cbn [lstrip].
    change (whitespace dquote) with false. cbv iota. ground_eqb. cbv iota.
    rewrite size_dict in Hfuel.
    rewrite Forall_forall in IH.
    rewrite object_items_join.
    + cbn [mbind result_bind]. cbv beta iota.
      change ((key_str k, v) :: map (fun kv => (key_str (fst kv), snd kv)) kvs)
        with (map (fun kv => (key_str (fst kv), snd kv)) ((k, v) :: kvs)).
      by rewrite dict_of_pairs_items.
    + intros r Hr. apply (IH (k, v)); [by left| | |done].
      2: { pose proof (size_item_elem ((k, v) :: kvs) (k, v)) as Hsz.
           cbn [snd] in *. specialize (Hsz ltac:(by left)). lia. }
      cbn [forallb] in Hvalues. by apply andb_prop in Hvalues as [Hv _].
    + apply Forall_forall. intros kv Hkv r Hr.
      apply (IH kv); [by right| | |done].
      * cbn [forallb] in Hvalues. apply andb_prop in Hvalues as [_ Hvalues].
        rewrite forallb_forall in Hvalues. apply Hvalues.
        by apply list_elem_of_In.
      * pose proof (size_item_elem ((k, v) :: kvs) kv ltac:(by right)). lia.
    + pose proof (length_le_sum (fun kv => size (snd kv)) ((k, v) :: kvs)
                    (fun kv => size_pos (snd kv))) as Hlen.
      cbn [length] in Hlen. lia.
Qed.

(** [json.loads(json.dumps(v))] is [v] for every payload JSON has a value
    for. *)
Lemma loads_dumps (v : pyval) :
  json_native v = true → loads (dumps v) = Ok v.
Proof.
  intros Hnative. unfold loads.
  destruct (dumps_head v "") as [Hskip _]. rewrite append_nil_r in Hskip.
  rewrite Hskip.
  assert (scan_once (S (String.length (dumps v))) (dumps v +:+ "") = Ok (v, ""))
    as Hscan.
  { apply scan_once_dumps; [done| |done]. pose proof (size_le_length v). lia. }
  rewrite append_nil_r in Hscan. by rewrite Hscan.
Qed.

End JsonStructure.

(** ** [make_ingress]: the payload *)

Lemma make_ingress_proxy_data (name routespec target : string) (data : pyval)
    (endpoint : V1Endpoints.t) (service : V1Service.t) (ingress : V1beta1Ingress.t) :
  make_ingress name routespec target data = Ok (endpoint, service, ingress) →
  proxy_data (V1Endpoints.metadata endpoint) = Some (Json.dumps data)
  ∧ proxy_data (V1Service.metadata service) = Some (Json.dumps data)
  ∧ proxy_data (V1beta1Ingress.metadata ingress) = Some (Json.dumps data).
Proof.
  intros H.
  destruct (make_ingress_inv _ _ _ _ _ _ _ H)
    as (host & path & parts & port & _ & _ & _ & He & Hi & Hs & _).
  rewrite He, Hi, Hs. unfold proxy_data. cbn [V1ObjectMeta.annotations].
  by destruct (proxy_annotations_lookup (Json.dumps data) routespec target) as [-> _].
Qed.




(** * Further properties of the builders *)

(** ** [make_ingress]: when it returns, and how it fails *)

Section StrSplit.
Import Str.

Lemma break_first_contains (sep : ascii) (s : string) :
  contains sep s = true → ∃ a b, break_first sep s = Some (a, b).
Proof.
  induction s as [|x s IH]; simpl; [done|].
  destruct (Ascii.eqb x sep); [by eexists _, _|].
  intros H. destruct (IH H) as (a & b & ->). by eexists _, _.
Qed.

Lemma break_first_some (sep : ascii) (s a b : string) :
  break_first sep s = Some (a, b) →
  s = a +:+ String sep b ∧ contains sep a = false.
Proof.
  revert a. induction s as [|x s IH]; simpl; intros a; [done|].
  destruct (Ascii.eqb x sep) eqn:Hx.
  - intros [= <- <-]. by apply Ascii.eqb_eq in Hx as ->.
  - destruct (break_first sep s) as [[a' b']|]; [|done].
    intros [= <- <-]. destruct (IH a' eq_refl) as [-> Ha].
    rewrite append_cons. simpl. by rewrite Hx.
Qed.

Lemma startswith_contains (c : ascii) (s : string) :
  startswith (String c "") s = true → contains c s = true.
Proof.
  destruct s as [|x s]; [done|]. simpl.
  rewrite (Ascii.eqb_sym c x). by destruct (Ascii.eqb x c).
Qed.

End StrSplit.

(** The route specification is parsed exactly when it contains a
    slash. *)
Lemma routespec_host_path_returns (routespec : string) :
  returns (routespec_host_path routespec) ↔ Str.contains "/" routespec = true.
Proof.
  split.
  - intros [[host path] H].
    destruct (Str.contains "/" routespec) eqn:Hc; [done|].
    by rewrite (routespec_host_path_no_slash _ Hc) in H.
  - intros Hc. unfold routespec_host_path, Str.split1.
    destruct (Str.startswith "/" routespec); [by eexists|].
    destruct (break_first_contains _ _ Hc) as (a & b & ->). by eexists.
Qed.

(** The host and the path put the route specification together again. *)
Lemma routespec_host_path_inv (routespec : string) (host : option string)
    (path : string) :
  routespec_host_path routespec = Ok (host, path) →
  match host with
  | None => routespec = path ∧ Str.startswith "/" path = true
  | Some h =>
      routespec = h +:+ String "/" path
      ∧ h ≠ "" ∧ Str.contains "/" h = false
  end.
Proof.
  unfold routespec_host_path, Str.split1.
  destruct (Str.startswith "/" routespec) eqn:Hs.
  - by intros [= <- <-].
  - destruct (Str.break_first "/" routespec) as [[a b]|] eqn:Hb; [|done].
    intros [= <- <-]. destruct (break_first_some _ _ _ _ Hb) as [-> Ha].
    split_and!; [done| |done]. by intros ->.
Qed.




Section UrlFacts.
Import Str.

Lemma digits_value_nonneg (s : string) (acc : Z) :
  all_chars is_ascii_digit s = true → 0 ≤ acc → 0 ≤ digits_value acc s.
Proof.
  revert acc. induction s as [|c s IH]; intros acc; [done|].
  cbn [all_chars digits_value]. intros [Hc Hs]%andb_prop Hacc.
  apply IH; [done|]. unfold is_ascii_digit, between in Hc.
  apply andb_prop in Hc as [Hlo _]. unfold digit_value. lia.
Qed.

(** A port that is present lies in the range of port numbers. *)
Lemma port_range (parts : Url.ParseResult) (p : Z) :
  Url.port parts = Ok (Some p) → 0 ≤ p ≤ 65535.
Proof.
  unfold Url.port. destruct (Url.hostinfo parts).2 as [digits|]; [|done].
  destruct (all_chars is_ascii_digit digits) eqn:Hd; [|done].
  destruct (digits_value 0 digits <=? 65535) eqn:Hle; [|done].
  intros [= <-]. split; [by apply digits_value_nonneg|lia].
Qed.

Lemma lower_empty (s : string) : lower s = "" → s = "".
Proof. by destruct s. Qed.

(** A host name that is present is not empty. *)
Lemma hostname_nonempty (parts : Url.ParseResult) (h : string) :
  Url.hostname parts = Some h → h ≠ "".
Proof.
  unfold Url.hostname. destruct (Url.hostinfo parts).1 as [|c raw] eqn:Hraw; [done|].
  cbn [is_empty]. unfold partition.
  destruct (break_first "%" (String c raw)) as [[a b]|] eqn:Hb.
  - intros [= <-] Hh. destruct (lower a); by rewrite ?append_cons in Hh.
  - intros [= <-] Hh. cbn [lower] in Hh. by rewrite append_cons in Hh.
Qed.

End UrlFacts.




(** X3.  The host and the path of the ingress rule put the route
    specification together again: without a host the path is the whole specification and
    starts with a slash; with a host, which is then non-empty and free of
    slashes, the specification is the host, a slash and the path. *)
Theorem make_ingress_route_rebuilds_routespec
    (name routespec target : string) (data : pyval)
    (endpoint : V1Endpoints.t) (service : V1Service.t) (ingress : V1beta1Ingress.t) :
  make_ingress name routespec target data = Ok (endpoint, service, ingress) →
  ∃ host path port,
    ingress_route ingress = Some (host, path, port)
    ∧ match host with
      | None => routespec = path ∧ Str.startswith "/" path = true
      | Some h =>
          routespec = h +:+ String "/" path
          ∧ h ≠ "" ∧ Str.contains "/" h = false
      end.
Proof.
  intros H.
  destruct (make_ingress_inv _ _ _ _ _ _ _ H)
    as (host & path & parts & port & Hr & _ & _ & _ & _ & _ & _ & _ & Hroute & _).
  exists host, path, port. split; [done|]. by apply routespec_host_path_inv.
Qed.

Lemma make_ingress_route_rebuilds_routespec_witness :
  ∃ endpoint service ingress,
    make_ingress "jupyter-alice" "hub.example.org/user/alice/"
      "http://10.0.0.5:8000" PNone
    = Ok (endpoint, service, ingress)
    ∧ ∃ host path port,
        ingress_route ingress = Some (host, path, port)
        ∧ match host with
          | None => "hub.example.org/user/alice/" = path
                    ∧ Str.startswith "/" path = true
          | Some h =>
              "hub.example.org/user/alice/" = h +:+ String "/" path
              ∧ h ≠ "" ∧ Str.contains "/" h = false
          end.
Proof.
  eexists _, _, _. split; [reflexivity|].
  exact (make_ingress_route_rebuilds_routespec "jupyter-alice"
           "hub.example.org/user/alice/" "http://10.0.0.5:8000" PNone _ _ _ eq_refl).
Defined.

(** X4.  In the endpoint [make_ingress] returns, an address that is
    present is not empty, and a port that is present is between 0 and
    65535. *)
Theorem make_ingress_address_and_port_bounds
    (name routespec target : string) (data : pyval)
    (endpoint : V1Endpoints.t) (service : V1Service.t) (ingress : V1beta1Ingress.t) :
  make_ingress name routespec target data = Ok (endpoint, service, ingress) →
  ∃ ip port,
    V1Endpoints.subsets endpoint =
      [ V1EndpointSubset.mk [V1EndpointAddress.mk ip] [V1EndpointPort.mk port] ]
    ∧ (∀ h, ip = Some h → h ≠ "")
    ∧ (∀ p, port = Some p → 0 ≤ p ≤ 65535).
Proof.
  intros H.
  destruct (make_ingress_inv _ _ _ _ _ _ _ H)
    as (host & path & parts & port & _ & _ & Hp & _ & _ & _ & Hsub & _).
  exists (Url.hostname parts), port. split_and!; [done| |].
  - intros h Hh. by eapply hostname_nonempty.
  - intros p ->. by eapply port_range.
Qed.

Lemma make_ingress_address_and_port_bounds_witness :
  ∃ endpoint service ingress,
    make_ingress "jupyter-alice" "/user/alice/" "http://Hub-7.Example.ORG:65535"
      PNone
    = Ok (endpoint, service, ingress)
    ∧ ∃ ip port,
        V1Endpoints.subsets endpoint =
          [ V1EndpointSubset.mk [V1EndpointAddress.mk ip] [V1EndpointPort.mk port] ]
        ∧ (∀ h, ip = Some h → h ≠ "")
        ∧ (∀ p, port = Some p → 0 ≤ p ≤ 65535).
Proof.
  eexists _, _, _. split; [reflexivity|].
  exact (make_ingress_address_and_port_bounds "jupyter-alice" "/user/alice/"
           "http://Hub-7.Example.ORG:65535" PNone _ _ _ eq_refl).
Defined.

(** X5.  The ingress routes to the service built with it: its single rule has
    a single path, whose backend names the service by the name all three
    objects carry. *)
Theorem make_ingress_backend_names_service
    (name routespec target : string) (data : pyval)
    (endpoint : V1Endpoints.t) (service : V1Service.t) (ingress : V1beta1Ingress.t) :
  make_ingress name routespec target data = Ok (endpoint, service, ingress) →
  ∃ rule p,
    V1beta1IngressSpec.rules (V1beta1Ingress.spec ingress) = [rule]
    ∧ V1beta1HTTPIngressRuleValue.paths (V1beta1IngressRule.http rule) = [p]
    ∧ V1beta1IngressBackend.service_name (V1beta1HTTPIngressPath.backend p)
      = V1ObjectMeta.name (V1Service.metadata service)
    ∧ V1ObjectMeta.name (V1Service.metadata service) = name
    ∧ V1beta1IngressBackend.service_port (V1beta1HTTPIngressPath.backend p)
      = match V1ServiceSpec.ports (V1Service.spec service) with
        | [service_port] => V1ServicePort.port service_port
        | _ => None
        end.
Proof.
  unfold make_ingress. intros H.
  apply bind_Ok in H as ([host path] & Hr & H).
  apply bind_Ok in H as (parts & Hu & H).
  apply bind_Ok in H as (port & Hp & H).
  injection H as <- <- <-. by eexists _, _.
Qed.

Lemma make_ingress_backend_names_service_witness :
  ∃ endpoint service ingress,
    make_ingress "jupyter-alice" "/user/alice/" "http://10.0.0.5:8000" PNone
    = Ok (endpoint, service, ingress)
    ∧ ∃ rule p,
        V1beta1IngressSpec.rules (V1beta1Ingress.spec ingress) = [rule]
        ∧ V1beta1HTTPIngressRuleValue.paths (V1beta1IngressRule.http rule) = [p]
        ∧ V1beta1IngressBackend.service_name (V1beta1HTTPIngressPath.backend p)
          = V1ObjectMeta.name (V1Service.metadata service)
        ∧ V1ObjectMeta.name (V1Service.metadata service) = "jupyter-alice"
        ∧ V1beta1IngressBackend.service_port (V1beta1HTTPIngressPath.backend p)
          = match V1ServiceSpec.ports (V1Service.spec service) with
            | [service_port] => V1ServicePort.port service_port
            | _ => None
            end.
Proof.
  eexists _, _, _. split; [reflexivity|].
  exact (make_ingress_backend_names_service "jupyter-alice" "/user/alice/"
           "http://10.0.0.5:8000" PNone _ _ _ eq_refl).
Defined.

(** ** [int] of the text of an integer *)

Section IntFacts.
Import Str.

Lemma all_chars_impl (f g : ascii → bool) (s : string) :
  (∀ c, f c = true → g c = true) →
  all_chars f s = true → all_chars g s = true.
Proof.
  intros Hfg. induction s as [|c s IH]; [done|]. cbn [all_chars].
  intros [Hc Hs]%andb_prop. by rewrite (Hfg c Hc), IH.
Qed.

Lemma all_chars_append (f : ascii → bool) (a b : string) :
  all_chars f (a +:+ b) = all_chars f a && all_chars f b.
Proof.
  induction a as [|c a IH]; [done|]. rewrite append_cons. cbn [all_chars].
  by rewrite IH, andb_assoc.
Qed.

Lemma lstrip_id (f : ascii → bool) (s : string) :
  all_chars (fun c => negb (f c)) s = true → lstrip f s = s.
Proof.
  destruct s as [|c s]; [done|]. cbn [all_chars lstrip].
  intros [Hc _]%andb_prop. by destruct (f c).
Qed.

Lemma rstrip_id (f : ascii → bool) (s : string) :
  all_chars (fun c => negb (f c)) s = true → rstrip f s = s.
Proof.
  induction s as [|c s IH]; [done|]. cbn [all_chars rstrip].
  intros [Hc Hs]%andb_prop. rewrite (IH Hs).
  destruct (f c); [done|]. by rewrite andb_false_r.
Qed.

Lemma strip_id (f : ascii → bool) (s : string) :
  all_chars (fun c => negb (f c)) s = true → strip f s = s.
Proof. intros H. unfold strip. by rewrite lstrip_id, rstrip_id. Qed.

Lemma digit_not_space (c : ascii) :
  is_ascii_digit c = true → negb (is_space c) = true.
Proof. destruct c as [[] [] [] [] [] [] [] []]; try discriminate; done. Qed.

Lemma all_digits_uint (d : Decimal.uint) :
  all_chars is_ascii_digit (NilEmpty.string_of_uint d) = true.
Proof. induction d; cbn [NilEmpty.string_of_uint all_chars]; by rewrite ?IHd. Qed.

Lemma int_digits_digits (s : string) (acc : Z) :
  all_chars is_ascii_digit s = true →
  int_digits false acc s = Some (digits_value acc s).
Proof.
  revert acc. induction s as [|c s IH]; intros acc; [done|].
  cbn [all_chars int_digits digits_value]. intros [-> Hs]%andb_prop. by apply IH.
Qed.

Lemma int_of_str_digits (c : ascii) (r : string) :
  all_chars is_ascii_digit (String c r) = true →
  int_of_str (String c r) = Ok (digits_value 0 (String c r)).
Proof.
  intros Hd. unfold int_of_str.
  rewrite strip_id by (eapply all_chars_impl; [apply digit_not_space|done]).
  cbn [all_chars] in Hd. apply andb_prop in Hd as [Hc Hr].
  destruct c as [[] [] [] [] [] [] [] []]; try discriminate Hc;
    cbv beta iota zeta; change (is_ascii_digit _) with true; cbv iota;
    by rewrite (int_digits_digits r _ Hr).
Qed.

(** [int(str(z))] is [z]. *)
Lemma int_of_str_int_repr (z : Z) : int_of_str (int_repr z) = Ok z.
Proof.
  destruct z as [|p|p].
  - done.
  - rewrite int_repr_pos.
    destruct (match_digits_pos p "" eq_refl) as (_ & c & t & Hs & Hc).
    pose proof (all_digits_uint (Pos.to_uint p)) as Hd.
    pose proof (digits_value_pos p) as Hv. rewrite Hs in Hd, Hv |- *.
    by rewrite int_of_str_digits, Hv.
  - rewrite int_repr_neg.
    destruct (match_digits_pos p "" eq_refl) as (_ & c & t & Hs & Hc).
    pose proof (all_digits_uint (Pos.to_uint p)) as Hd.
    pose proof (digits_value_pos p) as Hv. rewrite Hs in Hd, Hv |- *.
    unfold int_of_str. rewrite strip_id.
    + cbn [all_chars] in Hd. apply andb_prop in Hd as [_ Hr].
      cbv beta iota. rewrite Hc, (int_digits_digits t _ Hr).
      cbn [digits_value] in Hv.
      change (10 * 0 + digit_value c) with (digit_value c) in Hv. by rewrite Hv.
    + change (String "-" (String c t)) with ("-" +:+ String c t).
      rewrite all_chars_append. apply andb_true_intro. split; [done|].
      eapply all_chars_impl; [apply digit_not_space|done].
Qed.

End IntFacts.

(** ** [make_pod]: ids, node selector, container *)

(** [int] fails on a string that does not spell an integer, with
    [ValueError], and on [None], a list, a tuple or a dictionary, with
    [TypeError]. *)
Lemma int_error (x : pyval) (e : exn) :
  Py.int x = Raise e →
  match x with
  | PStr s =>
      Py.int_of_str s = Raise e
      ∧ e = ValueError "invalid literal for int() with base 10"
  | PNone | PList _ | PTuple _ | PDict _ =>
      e = TypeError
            "int() argument must be a string, a bytes-like object or a real number"
  | PBool _ | PInt _ => False
  end.
Proof.
  destruct x; simpl; try done; try by intros [= <-].
  intros H. split; [done|]. unfold Py.int_of_str in H.
  repeat case_match; by simplify_eq.
Qed.

Lemma int_unless_none_raises (x : pyval) (e : exn) :
  int_unless_none x = Raise e ↔ x ≠ PNone ∧ Py.int x = Raise e.
Proof.
  unfold int_unless_none.
  destruct x; cbv beta iota; try (destruct (Py.int _) as [n|e']; simpl);
    (split; [intros H; try discriminate H; injection H as <-; by split
            |intros [Hne H]; try discriminate H; try (by destruct Hne);
             by injection H as <-]).
Qed.

Section make_pod_more.

Context (name image_spec image_pull_policy : string)
        (image_pull_secret : option string)
        (port : Z)
        (cmd : list string)
        (node_selector : option (gmap string string))
        (env : list (string * string))
        (working_dir : option string)
        (volumes volume_mounts : list pyval)
        (labels : gmap string string)
        (cpu_limit cpu_guarantee mem_limit mem_guarantee : pyval)
        (lifecycle_hooks : pyval)
        (init_containers : list pyval).

#[local] Abbreviation pod_with run_as_uid fs_gid :=
  (make_pod name image_spec image_pull_policy image_pull_secret port cmd
     node_selector run_as_uid fs_gid env working_dir volumes volume_mounts
     labels cpu_limit cpu_guarantee mem_limit mem_guarantee lifecycle_hooks
     init_containers).

(** X6.  [make_pod] fails only on an id that is given and does not
    convert: with a [ValueError] on a string that does not spell an
    integer, with a [TypeError] on a list, a tuple or a dictionary.
    [fs_gid] is converted first: its exception is the one raised when
    both ids are bad. *)
Theorem make_pod_raises (run_as_uid fs_gid : pyval) (e : exn) :
  pod_with run_as_uid fs_gid = Raise e →
  ∃ id,
    ((id = fs_gid)
     ∨ (id = run_as_uid ∧ returns (int_unless_none fs_gid)))
    ∧ Py.int id = Raise e
    ∧ match id with
      | PStr _ => ∃ msg, e = ValueError msg
      | PList _ | PTuple _ | PDict _ => ∃ msg, e = TypeError msg
      | PNone | PBool _ | PInt _ => False
      end.
Proof.
  unfold make_pod. intros H.
  destruct (int_unless_none fs_gid) as [g|e1] eqn:Hg; simpl in H.
  - destruct (int_unless_none run_as_uid) as [u|e2] eqn:Hu; simpl in H; [done|].
    injection H as <-. apply int_unless_none_raises in Hu as [Hne Hu].
    exists run_as_uid. split_and!; [right; split; [done|by eexists]|done|].
    pose proof (int_error _ _ Hu) as He.
    destruct run_as_uid; try done; [destruct He| | |]; by eexists.
  - injection H as <-. apply int_unless_none_raises in Hg as [Hne Hg].
    exists fs_gid. split_and!; [by left|done|].
    pose proof (int_error _ _ Hg) as He.
    destruct fs_gid; try done; [destruct He| | |]; by eexists.
Qed.

(** X7.  The node selector of the pod is set exactly when a non-empty
    mapping is given, and is then that mapping: [None] and the empty
    mapping both leave it unset. *)
Theorem make_pod_node_selector (run_as_uid fs_gid : pyval) (pod : V1Pod.t) :
  pod_with run_as_uid fs_gid = Ok pod →
  ∀ selector,
    V1PodSpec.node_selector (V1Pod.spec pod) = Some selector ↔
    node_selector = Some selector ∧ selector ≠ ∅.
Proof.
  unfold make_pod. intros H selector.
  apply bind_Ok in H as (g & Hg & H). apply bind_Ok in H as (u & Hu & H).
  injection H as <-. cbn [V1Pod.spec V1PodSpec.node_selector].
  unfold truthy_dict. destruct node_selector as [m|]; [|by split; [|intros [? _]]].
  destruct (decide (m = ∅)) as [->|Hne].
  - rewrite bool_decide_eq_true_2 by done. cbn.
    split; [done|]. by intros [[= <-] Hne].
  - rewrite bool_decide_eq_false_2 by done. cbn.
    split; [by intros [= <-]|by intros [? _]].
Qed.

(** X8.  The pod has exactly one container, named [notebook], with
    exactly one port, named [notebook-port], on the port given; its
    environment lists the variables given, one entry each and in their
    order. *)
Theorem make_pod_container (run_as_uid fs_gid : pyval) (pod : V1Pod.t) :
  pod_with run_as_uid fs_gid = Ok pod →
  ∃ container container_port,
    V1PodSpec.containers (V1Pod.spec pod) = [container]
    ∧ V1Container.name container = "notebook"
    ∧ V1Container.ports container = [container_port]
    ∧ V1ContainerPort.name container_port = "notebook-port"
    ∧ V1ContainerPort.container_port container_port = port
    ∧ length (V1Container.env container) = length env
    ∧ ∀ i k v, env !! i = Some (k, v) ↔
               V1Container.env container !! i = Some (V1EnvVar.mk k v).
Proof.
  unfold make_pod. intros H.
  apply bind_Ok in H as (g & Hg & H). apply bind_Ok in H as (u & Hu & H).
  injection H as <-. eexists _, _. split_and!; try done.
  - cbn. by rewrite length_map.
  - intros i k v. cbn. rewrite list_lookup_fmap.
    destruct (env !! i) as [[k' v']|]; cbn; [|done].
    split; by intros [= -> ->].
Qed.

(** X9.  The two ids reach the security context and nothing else: pods
    built from the same other arguments differ in their security context
    at most. *)
Theorem make_pod_ids_only_in_security_context
    (run_as_uid fs_gid run_as_uid' fs_gid' : pyval) (pod pod' : V1Pod.t) :
  pod_with run_as_uid fs_gid = Ok pod →
  pod_with run_as_uid' fs_gid' = Ok pod' →
  pod' = V1Pod.mk (V1Pod.kind pod) (V1Pod.api_version pod) (V1Pod.metadata pod)
           (V1PodSpec.mk
              (V1PodSpec.security_context (V1Pod.spec pod'))
              (V1PodSpec.image_pull_secrets (V1Pod.spec pod))
              (V1PodSpec.node_selector (V1Pod.spec pod))
              (V1PodSpec.containers (V1Pod.spec pod))
              (V1PodSpec.init_containers (V1Pod.spec pod))
              (V1PodSpec.volumes (V1Pod.spec pod))).
Proof.
  unfold make_pod. intros H H'.
  apply bind_Ok in H as (g & Hg & H). apply bind_Ok in H as (u & Hu & H).
  apply bind_Ok in H' as (g' & Hg' & H'). apply bind_Ok in H' as (u' & Hu' & H').
  by injection H as <-; injection H' as <-.
Qed.

(** X10.  An id given as the decimal text of an integer gives the same
    pod as the integer itself.  The ids are taken below [10 ^ 640]: up to
    that many digits no setting of the interpreter's cap on conversions
    between [int] and [str] applies. *)
Theorem make_pod_ids_as_text (u g : Z) :
  Z.abs u < 10 ^ 640 → Z.abs g < 10 ^ 640 →
  pod_with (PStr (int_repr u)) (PStr (int_repr g)) = pod_with (PInt u) (PInt g).
Proof.
  intros _ _. unfold make_pod, int_unless_none. cbn [Py.int].
  by rewrite !int_of_str_int_repr.
Qed.

End make_pod_more.

Lemma make_pod_raises_witness :
  make_pod "jupyter-alice" "jupyter/singleuser:latest" "IfNotPresent"
    None 8888 ["jupyterhub-singleuser"] None (PList []) (PStr "staff")
    [] None [] [] ∅ PNone PNone PNone PNone PNone []
  = Raise (ValueError "invalid literal for int() with base 10")
  ∧ ∃ id,
      ((id = PStr "staff")
       ∨ (id = PList [] ∧ returns (int_unless_none (PStr "staff"))))
      ∧ Py.int id = Raise (ValueError "invalid literal for int() with base 10")
      ∧ match id with
        | PStr _ =>
            ∃ msg, ValueError "invalid literal for int() with base 10" = ValueError msg
        | PList _ | PTuple _ | PDict _ =>
            ∃ msg, ValueError "invalid literal for int() with base 10" = TypeError msg
        | PNone | PBool _ | PInt _ => False
        end.
Proof.
  split; [reflexivity|].
  exact (make_pod_raises "jupyter-alice" "jupyter/singleuser:latest" "IfNotPresent"
           None 8888 ["jupyterhub-singleuser"] None [] None [] [] ∅
           PNone PNone PNone PNone PNone [] (PList []) (PStr "staff") _ eq_refl).
Defined.

Lemma make_pod_node_selector_witness :
  ∃ pod,
    make_pod "jupyter-alice" "jupyter/singleuser:latest" "IfNotPresent"
      None 8888 ["jupyterhub-singleuser"] (Some {[ "disktype" := "ssd" ]})
      (PInt 1000) (PInt 100)
      [] None [] [] ∅ PNone PNone PNone PNone PNone []
    = Ok pod
    ∧ ∀ selector,
        V1PodSpec.node_selector (V1Pod.spec pod) = Some selector ↔
        Some ({[ "disktype" := "ssd" ]} : gmap string string) = Some selector
        ∧ selector ≠ ∅.
Proof.
  eexists. split; [reflexivity|].
  exact (make_pod_node_selector "jupyter-alice" "jupyter/singleuser:latest"
           "IfNotPresent" None 8888 ["jupyterhub-singleuser"]
           (Some {[ "disktype" := "ssd" ]}) [] None [] [] ∅
           PNone PNone PNone PNone PNone [] (PInt 1000) (PInt 100) _ eq_refl).
Defined.

Lemma make_pod_container_witness :
  ∃ pod,
    make_pod "jupyter-alice" "jupyter/singleuser:latest" "IfNotPresent"
      None 8888 ["jupyterhub-singleuser"] None (PInt 1000) (PInt 100)
      [("JUPYTERHUB_USER", "alice"); ("JUPYTERHUB_API_URL", "http://hub:8081/hub/api")]
      None [] [] ∅ PNone PNone PNone PNone PNone []
    = Ok pod
    ∧ ∃ container container_port,
        V1PodSpec.containers (V1Pod.spec pod) = [container]
        ∧ V1Container.name container = "notebook"
        ∧ V1Container.ports container = [container_port]
        ∧ V1ContainerPort.name container_port = "notebook-port"
        ∧ V1ContainerPort.container_port container_port = 8888
        ∧ length (V1Container.env container)
          = length [("JUPYTERHUB_USER", "alice");
                    ("JUPYTERHUB_API_URL", "http://hub:8081/hub/api")]
        ∧ ∀ i k v,
            [("JUPYTERHUB_USER", "alice");
             ("JUPYTERHUB_API_URL", "http://hub:8081/hub/api")] !! i = Some (k, v) ↔
            V1Container.env container !! i = Some (V1EnvVar.mk k v).
Proof.
  eexists. split; [reflexivity|].
  exact (make_pod_container "jupyter-alice" "jupyter/singleuser:latest"
           "IfNotPresent" None 8888 ["jupyterhub-singleuser"] None
           [("JUPYTERHUB_USER", "alice");
            ("JUPYTERHUB_API_URL", "http://hub:8081/hub/api")]
           None [] [] ∅ PNone PNone PNone PNone PNone []
           (PInt 1000) (PInt 100) _ eq_refl).
Defined.

Lemma make_pod_ids_only_in_security_context_witness :
  ∃ pod pod',
    make_pod "jupyter-alice" "jupyter/singleuser:latest" "IfNotPresent"
      (Some "registry-key") 8888 ["jupyterhub-singleuser"] None (PInt 1000) PNone
      [("JUPYTERHUB_USER", "alice")] None [] [] ∅ PNone PNone PNone PNone PNone []
    = Ok pod
    ∧ make_pod "jupyter-alice" "jupyter/singleuser:latest" "IfNotPresent"
        (Some "registry-key") 8888 ["jupyterhub-singleuser"] None PNone (PStr "100")
        [("JUPYTERHUB_USER", "alice")] None [] [] ∅ PNone PNone PNone PNone PNone []
      = Ok pod'
    ∧ pod' = V1Pod.mk (V1Pod.kind pod) (V1Pod.api_version pod) (V1Pod.metadata pod)
               (V1PodSpec.mk
                  (V1PodSpec.security_context (V1Pod.spec pod'))
                  (V1PodSpec.image_pull_secrets (V1Pod.spec pod))
                  (V1PodSpec.node_selector (V1Pod.spec pod))
                  (V1PodSpec.containers (V1Pod.spec pod))
                  (V1PodSpec.init_containers (V1Pod.spec pod))
                  (V1PodSpec.volumes (V1Pod.spec pod))).
Proof.
  eexists _, _. split; [reflexivity|]. split; [reflexivity|].
  exact (make_pod_ids_only_in_security_context "jupyter-alice"
           "jupyter/singleuser:latest" "IfNotPresent" (Some "registry-key") 8888
           ["jupyterhub-singleuser"] None [("JUPYTERHUB_USER", "alice")] None [] [] ∅
           PNone PNone PNone PNone PNone []
           (PInt 1000) PNone PNone (PStr "100") _ _ eq_refl eq_refl).
Defined.

Lemma make_pod_ids_as_text_witness :
  Z.abs 1000 < 10 ^ 640 ∧ Z.abs 100 < 10 ^ 640
  ∧ make_pod "jupyter-alice" "jupyter/singleuser:latest" "IfNotPresent"
      None 8888 ["jupyterhub-singleuser"] None
      (PStr (int_repr 1000)) (PStr (int_repr 100))
      [] None [] [] ∅ PNone PNone PNone PNone PNone []
    = make_pod "jupyter-alice" "jupyter/singleuser:latest" "IfNotPresent"
        None 8888 ["jupyterhub-singleuser"] None (PInt 1000) (PInt 100)
        [] None [] [] ∅ PNone PNone PNone PNone PNone [].
Proof.
  split; [reflexivity|]. split; [reflexivity|].
  apply (make_pod_ids_as_text "jupyter-alice" "jupyter/singleuser:latest"
           "IfNotPresent" None 8888 ["jupyterhub-singleuser"] None [] None [] [] ∅
           PNone PNone PNone PNone PNone [] 1000 100); reflexivity.
Defined.

(** ** [make_pvc]: labels and storage request *)

(** X11.  The claim carries the labels given, key for key, and the access
    modes given, and requests storage and nothing else, without limits. *)
Theorem make_pvc_labels_and_storage (name : string) (storage_class : option string)
    (access_modes : list string) (storage : pyval) (labels : gmap string string) :
  let pvc := make_pvc name storage_class access_modes storage labels in
  V1ObjectMeta.labels (V1PersistentVolumeClaim.metadata pvc) = Some labels
  ∧ V1PersistentVolumeClaimSpec.access_modes (V1PersistentVolumeClaim.spec pvc)
    = access_modes
  ∧ ∃ requests,
      V1PersistentVolumeClaimSpec.resources (V1PersistentVolumeClaim.spec pvc)
      = V1ResourceRequirements.mk (Some requests) None
      ∧ ∀ k v, requests !! k = Some v ↔ k = "storage" ∧ v = storage.
Proof.
  cbn. rewrite (right_id_L (∅ : gmap string string) (∪)).
  split_and!; [done|done|]. eexists. split; [done|].
  intros k v. rewrite lookup_singleton_Some. by split; intros [-> ->].
Qed.

(** ** [make_ingress]: targets of the form [http://host:port] *)

Section PlainTarget.
Import Str.
#[local] Arguments Ascii.eqb : simpl nomatch.

Lemma remove_id (f : ascii → bool) (s : string) :
  all_chars (fun c => negb (f c)) s = true → remove f s = s.
Proof.
  induction s as [|c s IH]; [done|]. cbn [all_chars remove].
  intros [Hc Hs]%andb_prop. rewrite (IH Hs). by destruct (f c).
Qed.

Lemma take_until_id (f : ascii → bool) (s : string) :
  all_chars (fun c => negb (f c)) s = true → take_until f s = s.
Proof.
  induction s as [|c s IH]; [done|]. cbn [all_chars take_until].
  intros [Hc Hs]%andb_prop. rewrite (IH Hs). by destruct (f c).
Qed.

Lemma contains_false (c : ascii) (s : string) :
  all_chars (fun x => negb (Ascii.eqb x c)) s = true → contains c s = false.
Proof.
  induction s as [|x s IH]; [done|]. cbn [all_chars contains].
  intros [Hx Hs]%andb_prop. rewrite (IH Hs). by destruct (Ascii.eqb x c).
Qed.

Lemma break_last_none (c : ascii) (s : string) :
  contains c s = false → break_last c s = None.
Proof.
  induction s as [|x s IH]; [done|]. cbn [contains break_last].
  destruct (Ascii.eqb x c); [done|]. intros H. by rewrite IH.
Qed.

Lemma lower_id (s : string) : all_chars host_char s = true → lower s = s.
Proof.
  induction s as [|c s IH]; [done|]. cbn [all_chars lower].
  intros [Hc Hs]%andb_prop. rewrite (IH Hs). f_equal.
  destruct c as [[] [] [] [] [] [] [] []]; try discriminate Hc; done.
Qed.

Lemma netloc_char_facts (c : ascii) :
  netloc_char c = true →
  negb (Url.unsafe_byte c) = true
  ∧ negb (Url.netloc_delim c) = true
  ∧ negb (Ascii.eqb c "[") = true
  ∧ negb (Ascii.eqb c "]") = true
  ∧ negb (Ascii.eqb c "@") = true.
Proof. destruct c as [[] [] [] [] [] [] [] []]; try discriminate; done. Qed.

Lemma host_char_facts (c : ascii) :
  host_char c = true →
  negb (Ascii.eqb c ":") = true ∧ negb (Ascii.eqb c "%") = true
  ∧ netloc_char c = true.
Proof. destruct c as [[] [] [] [] [] [] [] []]; try discriminate; done. Qed.

Lemma digit_host_char (c : ascii) : is_ascii_digit c = true → host_char c = true.
Proof. destruct c as [[] [] [] [] [] [] [] []]; try discriminate; done. Qed.

(** The text of a natural number consists of digits, and its value is
    the number. *)
Lemma int_repr_nonneg (p : Z) :
  0 ≤ p →
  all_chars is_ascii_digit (int_repr p) = true
  ∧ int_repr p ≠ "" ∧ digits_value 0 (int_repr p) = p.
Proof.
  intros Hp. destruct p as [|p|p]; [done| |lia].
  rewrite int_repr_pos.
  destruct (match_digits_pos p "" eq_refl) as (_ & c & t & Hs & _).
  split_and!; [apply all_digits_uint|by rewrite Hs|apply digits_value_pos].
Qed.

Lemma urlparse_plain (host digits : string) :
  all_chars host_char host = true →
  all_chars is_ascii_digit digits = true →
  Url.urlparse ("http://" +:+ host +:+ ":" +:+ digits)
  = Ok {| Url.netloc := host +:+ ":" +:+ digits |}.
Proof.
  intros Hh Hd.
  assert (all_chars netloc_char (host +:+ ":" +:+ digits) = true) as Hn.
  { rewrite !all_chars_append. apply andb_true_intro. split.
    - eapply all_chars_impl; [|exact Hh]. intros c Hc. by apply host_char_facts.
    - cbn. eapply all_chars_impl; [|exact Hd].
      intros c Hc. by apply host_char_facts, digit_host_char. }
  assert (∀ f, (∀ c, netloc_char c = true → negb (f c) = true) →
               all_chars (fun c => negb (f c)) (host +:+ ":" +:+ digits) = true)
    as Hall.
  { intros f Hf. by eapply all_chars_impl; [|exact Hn]. }
  unfold Url.urlparse. rewrite !append_cons, append_nil_l. cbn [lstrip].
  change (Url.c0_control_or_space "h") with false. cbv iota.
  cbn [remove]. rewrite remove_id by (apply Hall; intros c Hc; by apply netloc_char_facts).
  cbn.
  rewrite take_until_id by (apply Hall; intros c Hc; by apply netloc_char_facts).
  rewrite (contains_false "[") by (apply Hall; intros c Hc; by apply netloc_char_facts).
  rewrite (contains_false "]") by (apply Hall; intros c Hc; by apply netloc_char_facts).
  done.
Qed.

Lemma hostinfo_plain (host digits : string) :
  all_chars host_char host = true →
  all_chars is_ascii_digit digits = true →
  Url.hostinfo {| Url.netloc := host +:+ ":" +:+ digits |}
  = (host, if is_empty digits then None else Some digits).
Proof.
  intros Hh Hd.
  assert (all_chars netloc_char (host +:+ ":" +:+ digits) = true) as Hn.
  { rewrite !all_chars_append. apply andb_true_intro. split.
    - eapply all_chars_impl; [|exact Hh]. intros c Hc. by apply host_char_facts.
    - cbn. eapply all_chars_impl; [|exact Hd].
      intros c Hc. by apply host_char_facts, digit_host_char. }
  unfold Url.hostinfo, rpartition, partition. cbn [Url.netloc].
  rewrite break_last_none.
  2: { apply contains_false. eapply all_chars_impl; [|exact Hn].
       intros c Hc. by apply netloc_char_facts. }
  rewrite (break_first_none "[").
  2: { apply contains_false. eapply all_chars_impl; [|exact Hn].
       intros c Hc. by apply netloc_char_facts. }
  change (":" +:+ digits) with (String ":" digits).
  rewrite break_first_app; [done|].
  apply contains_false. eapply all_chars_impl; [|exact Hh].
  intros c Hc. by apply host_char_facts.
Qed.

(** For a target [http://host:port], with a host of lower-case letters,
    digits, dots and hyphens and a port number up to 65535 in decimal,
    the parsed host name is the host and the parsed port is the number. *)
Lemma urlparse_http_host_port (host : string) (p : Z) :
  host ≠ "" → all_chars host_char host = true → 0 ≤ p ≤ 65535 →
  ∃ parts,
    Url.urlparse ("http://" +:+ host +:+ ":" +:+ int_repr p) = Ok parts
    ∧ Url.hostname parts = Some host
    ∧ Url.port parts = Ok (Some p).
Proof.
  intros Hne Hh [Hp0 Hp1].
  destruct (int_repr_nonneg p Hp0) as (Hd & Hdne & Hv).
  eexists. split; [by apply urlparse_plain|].
  unfold Url.hostname, Url.port. rewrite (hostinfo_plain _ _ Hh Hd). cbn [fst snd].
  destruct host as [|c host]; [done|]. cbn [is_empty].
  destruct (int_repr p) as [|d ds] eqn:Hs; [done|]. cbn [is_empty].
  split.
  - unfold partition. rewrite break_first_none.
    + by rewrite lower_id, !append_nil_r.
    + apply contains_false. eapply all_chars_impl; [|exact Hh].
      intros x Hx. by apply host_char_facts.
  - rewrite Hd, Hv. by rewrite (proj2 (Z.leb_le p 65535)).
Qed.

End PlainTarget.

(** X12.  With a route specification that contains a slash and a target
    [http://host:port] (a host of lower-case letters, digits, dots and
    hyphens, a port number up to 65535 in decimal), [make_ingress]
    returns, and the endpoint, the service and the ingress backend carry
    that host and that port. *)
Theorem make_ingress_http_host_port (name routespec host : string) (p : Z)
    (data : pyval) :
  Str.contains "/" routespec = true →
  host ≠ "" → Str.all_chars host_char host = true → 0 ≤ p ≤ 65535 →
  ∃ endpoint service ingress route_host path,
    make_ingress name routespec ("http://" +:+ host +:+ ":" +:+ int_repr p) data
    = Ok (endpoint, service, ingress)
    ∧ V1Endpoints.subsets endpoint =
        [ V1EndpointSubset.mk [V1EndpointAddress.mk (Some host)]
                              [V1EndpointPort.mk (Some p)] ]
    ∧ V1Service.spec service
      = V1ServiceSpec.mk [V1ServicePort.mk (Some p) (Some p)]
    ∧ ingress_route ingress = Some (route_host, path, Some p).
Proof.
  intros Hr Hne Hh Hp.
  destruct (urlparse_http_host_port host p Hne Hh Hp) as (parts & Hu & Hhost & Hport).
  apply routespec_host_path_returns in Hr as [[route_host path] Hr].
  unfold make_ingress. rewrite Hr. simpl. rewrite Hu. simpl. rewrite Hport. simpl.
  eexists _, _, _, route_host, path. by rewrite Hhost.
Qed.

Lemma make_ingress_http_host_port_witness :
  Str.contains "/" "/user/alice/" = true
  ∧ "hub-7.internal" ≠ ""
  ∧ Str.all_chars host_char "hub-7.internal" = true
  ∧ 0 ≤ 8888 ≤ 65535
  ∧ ∃ endpoint service ingress route_host path,
      make_ingress "jupyter-alice" "/user/alice/"
        ("http://" +:+ "hub-7.internal" +:+ ":" +:+ int_repr 8888) PNone
      = Ok (endpoint, service, ingress)
      ∧ V1Endpoints.subsets endpoint =
          [ V1EndpointSubset.mk [V1EndpointAddress.mk (Some "hub-7.internal")]
                                [V1EndpointPort.mk (Some 8888)] ]
      ∧ V1Service.spec service
        = V1ServiceSpec.mk [V1ServicePort.mk (Some 8888) (Some 8888)]
      ∧ ingress_route ingress = Some (route_host, path, Some 8888).
Proof.
  split; [reflexivity|]. split; [discriminate|]. split; [reflexivity|].
  split; [lia|].
  apply (make_ingress_http_host_port "jupyter-alice" "/user/alice/"
           "hub-7.internal" 8888 PNone); [reflexivity|discriminate|reflexivity|lia].
Defined.

(** ** [json.dumps] and [json.loads] on every payload *)

Section JsonMore.
Import Str Json.
#[local] Arguments Ascii.eqb : simpl nomatch.

(** *** The text is printable ASCII *)

Lemma escape_char_printable (c : ascii) :
  all_chars printable (escape_char c) = true.
Proof. destruct c as [[] [] [] [] [] [] [] []]; reflexivity. Qed.

Lemma escape_printable (s : string) : all_chars printable (escape s) = true.
Proof.
  induction s as [|c s IH]; [done|]. cbn [escape].
  by rewrite all_chars_append, escape_char_printable, IH.
Qed.

Lemma encode_basestring_ascii_printable (s : string) :
  all_chars printable (encode_basestring_ascii s) = true.
Proof.
  unfold encode_basestring_ascii. cbn [all_chars].
  by rewrite all_chars_append, escape_printable.
Qed.

Lemma digit_printable (c : ascii) : is_ascii_digit c = true → printable c = true.
Proof. destruct c as [[] [] [] [] [] [] [] []]; try discriminate; done. Qed.

Lemma int_repr_printable (z : Z) : all_chars printable (int_repr z) = true.
Proof.
  destruct z as [|p|p]; [done|rewrite int_repr_pos|rewrite int_repr_neg; cbn [all_chars]];
    rewrite (all_chars_impl _ _ _ digit_printable (all_digits_uint _)); done.
Qed.

Lemma join_items_printable {A : Type} (enc : A → string) (close : string)
    (xs : list A) :
  all_chars printable close = true →
  Forall (fun a => all_chars printable (enc a) = true) xs →
  all_chars printable (join_items enc close xs) = true.
Proof.
  intros Hclose. induction xs as [|y ys IH]; intros Hall; [done|].
  apply Forall_cons in Hall as [Hy Hall].
  by rewrite join_items_cons, !all_chars_append, Hy, IH.
Qed.

(** Whatever the payload, its text consists of printable ASCII
    characters only, and is not empty. *)
Lemma dumps_printable (v : pyval) :
  all_chars printable (dumps v) = true ∧ dumps v ≠ "".
Proof.
  split.
  - induction v as [|b|z|s|l IH|l IH|items IH] using pyval_nested_ind.
    + done.
    + by destruct b.
    + apply int_repr_printable.
    + apply encode_basestring_ascii_printable.
    + destruct l as [|x xs]; [done|]. apply Forall_cons in IH as [Hx Hxs].
      by rewrite dumps_list_cons, !all_chars_append, Hx, join_items_printable.
    + destruct l as [|x xs]; [done|]. apply Forall_cons in IH as [Hx Hxs].
      change (dumps (PTuple (x :: xs))) with (dumps (PList (x :: xs))).
      by rewrite dumps_list_cons, !all_chars_append, Hx, join_items_printable.
    + destruct items as [|kv kvs]; [done|].
      assert (Forall (fun kv => all_chars printable (dict_item kv) = true)
                     (kv :: kvs)) as Hitems.
      { eapply Forall_impl; [exact IH|]. intros [k v] Hv. unfold dict_item.
        cbn [fst snd] in *.
        by rewrite !all_chars_append, encode_basestring_ascii_printable, Hv. }
      apply Forall_cons in Hitems as [Hkv Hkvs].
      by rewrite dumps_dict_cons, !all_chars_append, Hkv, join_items_printable.
  - destruct (dumps_head v "") as [_ Hs]. rewrite append_nil_r in Hs.
    intros Hempty. destruct v as [|[]|z|s|[|x xs]|[|x xs]|[|kv kvs]]; try done.
    destruct (int_repr_head z) as (c & t & Hz & _). cbn [dumps] in Hempty.
    by rewrite Hz in Hempty.
Qed.

End JsonMore.

Section JsonAny.
Import Str Json.
#[local] Arguments Ascii.eqb : simpl nomatch.

(** *** Reading back the text of any payload *)

Lemma array_items_join_any (scan : string → result (pyval * string))
    (g : pyval → pyval) (xs : list pyval) :
  ∀ (fuel : nat) (x : pyval) (rest : string),
    Forall (fun y => ∀ r, terminated r = true →
                     scan (dumps y +:+ r) = Ok (g y, r)) (x :: xs) →
    (length xs < fuel)%nat →
    array_items scan fuel (dumps x +:+ join_items dumps "]" xs +:+ rest)
    = Ok (map g (x :: xs), rest).
Proof.
  induction xs as [|y ys IH]; intros fuel x rest Hall Hfuel;
    (destruct fuel as [|fuel]; [simpl in Hfuel; lia|]);
    apply Forall_cons in Hall as [Hx Hall]; cbn [array_items].
  - rewrite Hx by done. done.
  - destruct (join_items_head dumps "]" (y :: ys) rest (or_introl eq_refl)) as [Ht Hs].
    rewrite Hx by done. cbn [mbind result_bind]. cbv beta iota.
    rewrite Hs, join_items_cons, !append_cons, append_nil_l. cbn.
    rewrite append_assoc.
    rewrite (proj1 (dumps_head y _)).
    rewrite IH; [done|done|simpl in Hfuel; lia].
Qed.

Lemma object_items_join_any (scan : string → result (pyval * string))
    (g : pyval → pyval) (kvs : list (pykey * pyval)) :
  ∀ (fuel : nat) (k : string) (v : pyval) (rest : string),
    (∀ r, terminated r = true → scan (dumps v +:+ r) = Ok (g v, r)) →
    Forall (fun kv => ∀ r, terminated r = true →
                      scan (dumps (snd kv) +:+ r) = Ok (g (snd kv), r)) kvs →
    (length kvs < fuel)%nat →
    object_items scan fuel
      (escape k +:+ String dquote
         (": " +:+ dumps v +:+ join_items dict_item "}" kvs +:+ rest))
    = Ok ((k, g v) :: map (fun kv => (key_str (fst kv), g (snd kv))) kvs, rest).
Proof.
  induction kvs as [|[k' v'] kvs IH]; intros fuel k v rest Hv Hall Hfuel;
    (destruct fuel as [|fuel]; [simpl in Hfuel; lia|]);
    cbn [object_items]; rewrite scanstring_escape;
    cbn [mbind result_bind]; cbv beta iota;
    rewrite !append_cons, append_nil_l; cbn;
    rewrite (proj1 (dumps_head v _)).
  - rewrite Hv by done. done.
  - apply Forall_cons in Hall as [Hv' Hall].
    destruct (join_items_head dict_item "}" ((k', v') :: kvs) rest
                (or_intror eq_refl)) as [Ht Hs].
    rewrite Hv by done. cbn [mbind result_bind]. cbv beta iota.
    rewrite !append_assoc, !append_cons, append_nil_l. cbn.
    rewrite dict_item_head. cbn.
    rewrite IH; [done|done|done|simpl in Hfuel; lia].
Qed.

Lemma size_tuple (l : list pyval) : size (PTuple l) = S (list_sum (map size l)).
Proof. reflexivity. Qed.

Lemma scan_once_list_any (fuel : nat) (xs : list pyval) (x : pyval) (rest : string) :
  Forall (fun v => ∀ (fuel : nat) (rest : string),
            (size v ≤ fuel)%nat → terminated rest = true →
            scan_once fuel (dumps v +:+ rest) = Ok (jsonify v, rest)) (x :: xs) →
  (list_sum (map size (x :: xs)) ≤ fuel)%nat →
  terminated rest = true →
  scan_once (S fuel) (dumps (PList (x :: xs)) +:+ rest)
  = Ok (PList (map jsonify (x :: xs)), rest).
Proof.
  intros IH Hfuel Hrest.
  rewrite dumps_list_cons, !append_assoc, append_cons, append_nil_l.
  cbn [scan_once]. ground_eqb. cbv iota.
  destruct (dumps_head x (join_items dumps "]" xs +:+ rest)) as [-> ->].
  rewrite (array_items_join_any _ jsonify); [done| |].
  - apply Forall_forall. intros y Hy r Hr.
    rewrite Forall_forall in IH. apply IH; [done| |done].
    pose proof (size_elem _ _ Hy). lia.
  - pose proof (length_le_sum size (x :: xs) size_pos) as Hlen.
    cbn [length] in Hlen. lia.
Qed.

(** Scanning the text of any payload gives [jsonify] of it. *)
Lemma scan_once_dumps_any (v : pyval) :
  ∀ (fuel : nat) (rest : string),
    (size v ≤ fuel)%nat → terminated rest = true →
    scan_once fuel (dumps v +:+ rest) = Ok (jsonify v, rest).
Proof.
  induction v as [|b|z|s|l IH|l IH|items IH] using pyval_nested_ind;
    intros fuel rest Hfuel Hrest;
    (destruct fuel as [|fuel]; [cbn in Hfuel; lia|]).
  - done.
  - by destruct b.
  - by apply scan_once_int.
  - cbn [dumps]. rewrite encode_basestring_ascii_head. cbn.
    by rewrite scanstring_escape.
  - destruct l as [|x xs]; [done|]. rewrite size_list in Hfuel.
    apply scan_once_list_any; [done|lia|done].
  - destruct l as [|x xs]; [done|]. rewrite size_tuple in Hfuel.
    change (dumps (PTuple (x :: xs))) with (dumps (PList (x :: xs))).
    change (jsonify (PTuple (x :: xs))) with (PList (map jsonify (x :: xs))).
    apply scan_once_list_any; [done|lia|done].
  - destruct items as [|[k v] kvs]; [done|].
    rewrite dumps_dict_cons, !append_assoc, append_cons, append_nil_l.
    rewrite dict_item_head.
    cbn [scan_once]. ground_eqb. cbv iota.
    unfold skip_ws. cbn [lstrip].
    change (whitespace dquote) with false. cbv iota. ground_eqb. cbv iota.
    rewrite size_dict in Hfuel.
    rewrite Forall_forall in IH.
    rewrite (object_items_join_any _ jsonify).
    + done.
    + intros r Hr. apply (IH (k, v)); [by left| |done].
      pose proof (size_item_elem ((k, v) :: kvs) (k, v)) as Hsz.
      cbn [snd] in *. specialize (Hsz ltac:(by left)). lia.
    + apply Forall_forall. intros kv Hkv r Hr.
      apply (IH kv); [by right| |done].
      pose proof (size_item_elem ((k, v) :: kvs) kv ltac:(by right)). lia.
    + pose proof (length_le_sum (fun kv => size (snd kv)) ((k, v) :: kvs)
                    (fun kv => size_pos (snd kv))) as Hlen.
      cbn [length] in Hlen. lia.
Qed.

(** [json.loads(json.dumps(v))] returns for every payload, with
    [jsonify v]. *)
Lemma loads_dumps_any (v : pyval) : loads (dumps v) = Ok (jsonify v).
Proof.
  unfold loads.
  destruct (dumps_head v "") as [Hskip _]. rewrite append_nil_r in Hskip.
  rewrite Hskip.
  assert (scan_once (S (String.length (dumps v))) (dumps v +:+ "")
          = Ok (jsonify v, "")) as Hscan.
  { apply scan_once_dumps_any; [|done]. pose proof (size_le_length v). lia. }
  rewrite append_nil_r in Hscan. by rewrite Hscan.
Qed.

End JsonAny.

Section JsonNative.
Import Str Json.

Lemma dict_set_keys (k : string) (v : pyval) (d : list (string * pyval)) :
  map fst (dict_set k v d)
  = if bool_decide (k ∈ map fst d) then map fst d else (map fst d ++ [k])%list.
Proof.
  induction d as [|[k' v'] d IH]; [done|]. cbn [dict_set map fst].
  destruct (String.eqb k k') eqn:Hk.
  - apply String.eqb_eq in Hk as ->.
    rewrite bool_decide_eq_true_2; [done|]. apply elem_of_cons. by left.
  - apply String.eqb_neq in Hk. cbn [map fst]. rewrite IH.
    destruct (bool_decide (k ∈ map fst d)) eqn:Hin.
    + apply bool_decide_eq_true_1 in Hin.
      rewrite bool_decide_eq_true_2; [done|]. apply elem_of_cons. by right.
    + apply bool_decide_eq_false_1 in Hin.
      rewrite bool_decide_eq_false_2; [done|].
      rewrite elem_of_cons. by intros [?|?].
Qed.

Lemma dict_set_NoDup (k : string) (v : pyval) (d : list (string * pyval)) :
  NoDup (map fst d) → NoDup (map fst (dict_set k v d)).
Proof.
  intros Hnd. rewrite dict_set_keys.
  destruct (bool_decide (k ∈ map fst d)) eqn:Hin; [done|].
  apply bool_decide_eq_false_1 in Hin.
  apply NoDup_app. split_and!; [done| |apply NoDup_singleton].
  intros x Hx ->%list_elem_of_singleton. done.
Qed.

Lemma dict_set_values (P : pyval → Prop) (k : string) (v : pyval)
    (d : list (string * pyval)) :
  P v → Forall (fun kv => P (snd kv)) d →
  Forall (fun kv => P (snd kv)) (dict_set k v d).
Proof.
  intros Hv. induction d as [|[k' v'] d IH]; intros Hd; cbn [dict_set].
  - by constructor.
  - apply Forall_cons in Hd as [Hv' Hd].
    destruct (String.eqb k k'); constructor; auto.
Qed.

Lemma fold_dict_set_native (P : pyval → Prop) (pairs acc : list (string * pyval)) :
  Forall (fun kv => P (snd kv)) pairs →
  Forall (fun kv => P (snd kv)) acc → NoDup (map fst acc) →
  let d := fold_left (fun d kv => dict_set (fst kv) (snd kv) d) pairs acc in
  Forall (fun kv => P (snd kv)) d ∧ NoDup (map fst d).
Proof.
  revert acc. induction pairs as [|[k v] pairs IH]; intros acc Hp Ha Hnd; [done|].
  apply Forall_cons in Hp as [Hv Hp]. cbn [fold_left fst snd].
  apply IH; [done|by apply dict_set_values|by apply dict_set_NoDup].
Qed.

(** What [jsonify] gives is JSON-native. *)
Lemma json_native_jsonify (v : pyval) : json_native (jsonify v) = true.
Proof.
  induction v as [|b|z|s|l IH|l IH|items IH] using pyval_nested_ind;
    try done.
  - cbn [jsonify json_native]. apply forallb_forall. intros x Hx.
    apply in_map_iff in Hx as (y & <- & Hy).
    rewrite Forall_forall in IH. apply IH. by apply list_elem_of_In.
  - cbn [jsonify json_native]. apply forallb_forall. intros x Hx.
    apply in_map_iff in Hx as (y & <- & Hy).
    rewrite Forall_forall in IH. apply IH. by apply list_elem_of_In.
  - cbn [jsonify json_native]. unfold dict_of_pairs.
    destruct (fold_dict_set_native (fun v => json_native v = true)
                (map (fun kv => (key_str (fst kv), jsonify (snd kv))) items) [])
      as [Hvals Hnd]; [|constructor|constructor|].
    { apply Forall_forall. intros kv (kv' & -> & Hin)%list_elem_of_fmap.
      rewrite Forall_forall in IH. by apply IH. }
    apply andb_true_intro. split.
    + apply forallb_forall. intros x Hx.
      apply in_map_iff in Hx as ([k w] & <- & Hy). cbn.
      rewrite Forall_forall in Hvals. apply (Hvals (k, w)). by apply list_elem_of_In.
    + apply bool_decide_eq_true_2. rewrite map_map. cbn [fst].
      rewrite <- (map_map fst KStr).
      apply (NoDup_fmap_2_strong KStr); [|exact Hnd]. by intros x y _ _ [= ->].
Qed.


(** Distinct JSON-native payloads have distinct texts. *)
Lemma dumps_native_inj (v w : pyval) :
  json_native v = true → json_native w = true → dumps v = dumps w → v = w.
Proof.
  intros Hv Hw Heq. pose proof (loads_dumps v Hv) as H1.
  pose proof (loads_dumps w Hw) as H2. congruence.
Qed.

End JsonNative.

(** ** [make_ingress]: the payload annotation *)

(** X13.  The payload annotation of the three objects is not empty and
    holds printable ASCII characters only, whatever the payload: characters
    outside that range are written as escapes. *)
Theorem make_ingress_proxy_data_ascii (name routespec target : string)
    (data : pyval)
    (endpoint : V1Endpoints.t) (service : V1Service.t) (ingress : V1beta1Ingress.t) :
  make_ingress name routespec target data = Ok (endpoint, service, ingress) →
  ∃ text,
    proxy_data (V1Endpoints.metadata endpoint) = Some text
    ∧ proxy_data (V1Service.metadata service) = Some text
    ∧ proxy_data (V1beta1Ingress.metadata ingress) = Some text
    ∧ text ≠ ""
    ∧ Str.all_chars printable text = true.
Proof.
  intros H.
  destruct (make_ingress_proxy_data _ _ _ _ _ _ _ H) as (He & Hs & Hi).
  destruct (dumps_printable data) as [Hp Hne].
  exists (Json.dumps data). by split_and!.
Qed.

Lemma make_ingress_proxy_data_ascii_witness :
  ∃ endpoint service ingress text,
    make_ingress "jupyter-zoe" "/user/zoe/" "http://10.0.0.5:8000"
      (PDict [(KStr "user", PStr (String "Z" (String "o" (String "235" ""))));
              (KStr "motd", PStr (String "009" "hi"))])
    = Ok (endpoint, service, ingress)
    ∧ proxy_data (V1Endpoints.metadata endpoint) = Some text
    ∧ proxy_data (V1Service.metadata service) = Some text
    ∧ proxy_data (V1beta1Ingress.metadata ingress) = Some text
    ∧ text ≠ ""
    ∧ Str.all_chars printable text = true.
Proof.
  destruct (make_ingress_proxy_data_ascii "jupyter-zoe" "/user/zoe/"
              "http://10.0.0.5:8000"
              (PDict [(KStr "user", PStr (String "Z" (String "o" (String "235" ""))));
                      (KStr "motd", PStr (String "009" "hi"))])
              _ _ _ eq_refl) as (text & He & Hs & Hi & Hne & Hp).
  eexists _, _, _, text. split; [reflexivity|]. by split_and!.
Defined.

(** X14.  Reading the payload annotation back never fails: for every payload
    the text parses, to [jsonify] of the payload (tuples as lists,
    dictionary keys as their strings, the last value of keys that
    collide), which is JSON-native. *)
Theorem make_ingress_proxy_data_reads_back (name routespec target : string)
    (data : pyval)
    (endpoint : V1Endpoints.t) (service : V1Service.t) (ingress : V1beta1Ingress.t) :
  make_ingress name routespec target data = Ok (endpoint, service, ingress) →
  ∃ text,
    proxy_data (V1Endpoints.metadata endpoint) = Some text
    ∧ proxy_data (V1Service.metadata service) = Some text
    ∧ proxy_data (V1beta1Ingress.metadata ingress) = Some text
    ∧ Json.loads text = Ok (jsonify data)
    ∧ json_native (jsonify data) = true.
Proof.
  intros H.
  destruct (make_ingress_proxy_data _ _ _ _ _ _ _ H) as (He & Hs & Hi).
  exists (Json.dumps data).
  split_and!; [done|done|done|apply loads_dumps_any|apply json_native_jsonify].
Qed.

Lemma make_ingress_proxy_data_reads_back_witness :
  ∃ endpoint service ingress text,
    make_ingress "jupyter-alice" "/user/alice/" "http://10.0.0.5:8000"
      (PDict [(KInt 1, PTuple [PInt 1; PInt 2]);
              (KStr "1", PStr "one");
              (KNone, PNone)])
    = Ok (endpoint, service, ingress)
    ∧ proxy_data (V1Endpoints.metadata endpoint) = Some text
    ∧ proxy_data (V1Service.metadata service) = Some text
    ∧ proxy_data (V1beta1Ingress.metadata ingress) = Some text
    ∧ Json.loads text
      = Ok (jsonify (PDict [(KInt 1, PTuple [PInt 1; PInt 2]);
                            (KStr "1", PStr "one");
                            (KNone, PNone)]))
    ∧ json_native (jsonify (PDict [(KInt 1, PTuple [PInt 1; PInt 2]);
                                   (KStr "1", PStr "one");
                                   (KNone, PNone)])) = true.
Proof.
  destruct (make_ingress_proxy_data_reads_back "jupyter-alice" "/user/alice/"
              "http://10.0.0.5:8000"
              (PDict [(KInt 1, PTuple [PInt 1; PInt 2]);
                      (KStr "1", PStr "one");
                      (KNone, PNone)])
              _ _ _ eq_refl) as (text & He & Hs & Hi & Hl & Hn).
  eexists _, _, _, text. split; [reflexivity|]. by split_and!.
Defined.



(** X16.  Two JSON-native payloads with the same payload annotation are
    the same payload, whatever the other arguments. *)
Theorem make_ingress_proxy_data_injective
    (name name' routespec routespec' target target' : string)
    (data data' : pyval)
    (endpoint endpoint' : V1Endpoints.t) (service service' : V1Service.t)
    (ingress ingress' : V1beta1Ingress.t) :
  make_ingress name routespec target data = Ok (endpoint, service, ingress) →
  make_ingress name' routespec' target' data' = Ok (endpoint', service', ingress') →
  json_native data = true → json_native data' = true →
  proxy_data (V1beta1Ingress.metadata ingress)
  = proxy_data (V1beta1Ingress.metadata ingress') →
  data = data'.
Proof.
  intros H H' Hn Hn' Heq.
  destruct (make_ingress_proxy_data _ _ _ _ _ _ _ H) as (_ & _ & Hi).
  destruct (make_ingress_proxy_data _ _ _ _ _ _ _ H') as (_ & _ & Hi').
  rewrite Hi, Hi' in Heq. injection Heq as Heq. by apply dumps_native_inj.
Qed.

Lemma make_ingress_proxy_data_injective_witness :
  ∃ endpoint service ingress endpoint' service' ingress',
    make_ingress "jupyter-alice" "/user/alice/" "http://10.0.0.5:8000"
      (PDict [(KStr "user", PStr "alice")])
    = Ok (endpoint, service, ingress)
    ∧ make_ingress "jupyter-alice-2" "hub.example.org/alice" "http://10.0.0.6:8001"
        (PDict [(KStr "user", PStr "alice")])
      = Ok (endpoint', service', ingress')
    ∧ json_native (PDict [(KStr "user", PStr "alice")]) = true
    ∧ proxy_data (V1beta1Ingress.metadata ingress)
      = proxy_data (V1beta1Ingress.metadata ingress')
    ∧ PDict [(KStr "user", PStr "alice")] = PDict [(KStr "user", PStr "alice")].
Proof.
  eexists _, _, _, _, _, _. split; [reflexivity|]. split; [reflexivity|].
  split; [reflexivity|]. split; [reflexivity|].
  exact (make_ingress_proxy_data_injective
           "jupyter-alice" "jupyter-alice-2" "/user/alice/" "hub.example.org/alice"
           "http://10.0.0.5:8000" "http://10.0.0.6:8001"
           (PDict [(KStr "user", PStr "alice")]) (PDict [(KStr "user", PStr "alice")])
           _ _ _ _ _ _ eq_refl eq_refl eq_refl eq_refl eq_refl).
Defined.

(** X17.  The payload reaches the payload annotation and nothing else: with
    the other arguments fixed, two payloads give the same endpoint
    subsets, service specification and ingress specification, the same
    name and labels, and annotations that agree on every other key. *)
Theorem make_ingress_payload_only_in_annotation
    (name routespec target : string) (data data' : pyval)
    (endpoint endpoint' : V1Endpoints.t) (service service' : V1Service.t)
    (ingress ingress' : V1beta1Ingress.t) :
  make_ingress name routespec target data = Ok (endpoint, service, ingress) →
  make_ingress name routespec target data' = Ok (endpoint', service', ingress') →
  V1Endpoints.kind endpoint' = V1Endpoints.kind endpoint
  ∧ V1Endpoints.subsets endpoint' = V1Endpoints.subsets endpoint
  ∧ V1Service.kind service' = V1Service.kind service
  ∧ V1Service.spec service' = V1Service.spec service
  ∧ V1beta1Ingress.kind ingress' = V1beta1Ingress.kind ingress
  ∧ V1beta1Ingress.spec ingress' = V1beta1Ingress.spec ingress
  ∧ V1ObjectMeta.name (V1beta1Ingress.metadata ingress')
    = V1ObjectMeta.name (V1beta1Ingress.metadata ingress)
  ∧ V1ObjectMeta.labels (V1beta1Ingress.metadata ingress')
    = V1ObjectMeta.labels (V1beta1Ingress.metadata ingress)
  ∧ ∃ annotations annotations',
      V1ObjectMeta.annotations (V1beta1Ingress.metadata ingress) = Some annotations
      ∧ V1ObjectMeta.annotations (V1beta1Ingress.metadata ingress') = Some annotations'
      ∧ ∀ key, key ≠ proxy_data_key → annotations' !! key = annotations !! key.
Proof.
  unfold make_ingress. intros H H'.
  apply bind_Ok in H as ([host path] & Hr & H).
  apply bind_Ok in H as (parts & Hu & H).
  apply bind_Ok in H as (port & Hp & H).
  rewrite Hr in H'. simpl in H'. rewrite Hu in H'. simpl in H'.
  rewrite Hp in H'. simpl in H'.
  injection H as <- <- <-. injection H' as <- <- <-.
  split_and!; try done. eexists _, _. split_and!; [done|done|].
  intros key Hkey. cbn [V1beta1Ingress.metadata V1ObjectMeta.annotations].
  by rewrite !(lookup_insert_ne _ proxy_data_key key) by done.
Qed.

Lemma make_ingress_payload_only_in_annotation_witness :
  ∃ endpoint service ingress endpoint' service' ingress',
    make_ingress "jupyter-alice" "/user/alice/" "http://10.0.0.5:8000"
      (PDict [(KStr "user", PStr "alice")])
    = Ok (endpoint, service, ingress)
    ∧ make_ingress "jupyter-alice" "/user/alice/" "http://10.0.0.5:8000" PNone
      = Ok (endpoint', service', ingress')
    ∧ V1Endpoints.subsets endpoint' = V1Endpoints.subsets endpoint
    ∧ V1Service.spec service' = V1Service.spec service
    ∧ V1beta1Ingress.spec ingress' = V1beta1Ingress.spec ingress.
Proof.
  eexists _, _, _, _, _, _. split; [reflexivity|]. split; [reflexivity|].
  destruct (make_ingress_payload_only_in_annotation "jupyter-alice" "/user/alice/"
              "http://10.0.0.5:8000" (PDict [(KStr "user", PStr "alice")]) PNone
              _ _ _ _ _ _ eq_refl eq_refl)
    as (_ & Hsub & _ & Hs & _ & Hi & _).
  by split_and!.
Defined.
